(** * prefer-function-type: a shallow embedding of the rule and its properties

    The rule lives in
    [packages/eslint-plugin/src/rules/prefer-function-type.ts].  It looks at
    interface declarations and object type literals whose only member is a
    call or construct signature and proposes a function type instead.

    The embedding follows the source function by function:
    [getReturnType], [hasOneSupertype], [shouldWrapSuggestion],
    [renderSuggestion], [checkMember] and the two visitor entries.  Source
    text is a [string] whose characters stand for the code units of the
    JavaScript string; offsets are [Z] as JavaScript numbers are signed.  A
    property access on [undefined] raises [TypeError]; this is kept as an
    explicit outcome. *)

From Stdlib Require Import String Ascii List ZArith Bool Lia Sorted.
Import ListNotations.

Local Open Scope string_scope.
Local Open Scope Z_scope.

(** ** Outcomes of JavaScript evaluation *)

Inductive Result (A : Type) : Type :=
| Ok (a : A)
| TypeError.

Arguments Ok {A} a.
Arguments TypeError {A}.

Definition bind {A B : Type} (r : Result A) (k : A -> Result B) : Result B :=
  match r with
  | Ok a => k a
  | TypeError => TypeError
  end.

Notation "x <- r ;; k" := (bind r (fun x => k))
  (at level 61, r at next level, right associativity).

(** ** The string operations the rule calls *)

Module JS.

(** [String.prototype.slice]: negative indices count from the end, both
    bounds are clamped, an absent [end] is the length. *)
Definition clamp (len i : Z) : Z :=
  if i <? 0 then Z.max (len + i) 0 else Z.min i len.

Definition slice (s : string) (start : Z) (end_ : option Z) : string :=
  let len := Z.of_nat (String.length s) in
  let from := clamp len start in
  let to := match end_ with
            | None => len
            | Some e => clamp len e
            end in
  let span := Z.max (to - from) 0 in
  substring (Z.to_nat from) (Z.to_nat span) s.

Fixpoint drop (n : nat) (s : string) : string :=
  match n, s with
  | O, _ => s
  | S n', String _ s' => drop n' s'
  | S _, EmptyString => EmptyString
  end.

(** The text before and after the first occurrence of [pat] in [s]. *)
Fixpoint splitFirst (pat s : string) : option (string * string) :=
  if prefix pat s then Some (EmptyString, drop (String.length pat) s)
  else match s with
       | EmptyString => None
       | String c s' =>
           match splitFirst pat s' with
           | Some (before, after) => Some (String c before, after)
           | None => None
           end
       end.

(** GetSubstitution of ECMAScript for a string pattern: there are no
    captures, so only [$$], [$&], [$`] and [$'] are expanded and every
    other [$] stands for itself. *)
Fixpoint getSubstitution (matched before after replacement : string)
  : string :=
  match replacement with
  | EmptyString => EmptyString
  | String c rest =>
      if Ascii.eqb c "$" then
        match rest with
        | String d rest' =>
            if Ascii.eqb d "$" then
              String "$" (getSubstitution matched before after rest')
            else if Ascii.eqb d "&" then
              matched ++ getSubstitution matched before after rest'
            else if Ascii.eqb d "`" then
              before ++ getSubstitution matched before after rest'
            else if Ascii.eqb d "'" then
              after ++ getSubstitution matched before after rest'
            else String c (getSubstitution matched before after rest)
        | EmptyString => String c EmptyString
        end
      else String c (getSubstitution matched before after rest)
  end.

(** [String.prototype.replace] with a string pattern: the first
    occurrence only. *)
Definition replace (s pat replacement : string) : string :=
  match splitFirst pat s with
  | None => s
  | Some (before, after) =>
      before ++ getSubstitution pat before after replacement ++ after
  end.

(** [String.prototype.endsWith]. *)
Definition endsWith (s suffix : string) : bool :=
  let ls := String.length s in
  let lx := String.length suffix in
  (lx <=? ls)%nat && String.eqb (substring (ls - lx) lx s) suffix.

End JS.

(** ** The syntax tree, as far as the rule reads it *)

Module AST_NODE_TYPES.
Inductive t : Type :=
| Identifier
| MemberExpression
| Program
| ExportNamedDeclaration
| TSTypeAliasDeclaration
| TSInterfaceDeclaration
| TSTypeLiteral
| TSCallSignatureDeclaration
| TSConstructSignatureDeclaration
| TSMethodSignature
| TSPropertySignature
| TSIndexSignature
| TSTypeReference
| TSThisType
| TSFunctionType
| TSTypeAnnotation
| TSUnionType
| TSIntersectionType
| TSArrayType
| TSVoidKeyword
| TSStringKeyword
| RestElement.

Definition eqb (a b : t) : bool :=
  match a, b with
  | Identifier, Identifier
  | MemberExpression, MemberExpression
  | Program, Program
  | ExportNamedDeclaration, ExportNamedDeclaration
  | TSTypeAliasDeclaration, TSTypeAliasDeclaration
  | TSInterfaceDeclaration, TSInterfaceDeclaration
  | TSTypeLiteral, TSTypeLiteral
  | TSCallSignatureDeclaration, TSCallSignatureDeclaration
  | TSConstructSignatureDeclaration, TSConstructSignatureDeclaration
  | TSMethodSignature, TSMethodSignature
  | TSPropertySignature, TSPropertySignature
  | TSIndexSignature, TSIndexSignature
  | TSTypeReference, TSTypeReference
  | TSThisType, TSThisType
  | TSFunctionType, TSFunctionType
  | TSTypeAnnotation, TSTypeAnnotation
  | TSUnionType, TSUnionType
  | TSIntersectionType, TSIntersectionType
  | TSArrayType, TSArrayType
  | TSVoidKeyword, TSVoidKeyword
  | TSStringKeyword, TSStringKeyword
  | RestElement, RestElement => true
  | _, _ => false
  end.
End AST_NODE_TYPES.

Module AST_TOKEN_TYPES.
Inductive t : Type :=
| Boolean | Identifier | Keyword | Null | Numeric | Punctuator | String.

Definition eqb (a b : t) : bool :=
  match a, b with
  | Boolean, Boolean | Identifier, Identifier | Keyword, Keyword
  | Null, Null | Numeric, Numeric | Punctuator, Punctuator
  | String, String => true
  | _, _ => false
  end.
End AST_TOKEN_TYPES.

(** [range] of a node or token: [start, end) offsets into the source text. *)
Definition Range : Type := (Z * Z)%type.

(** A type node or a type annotation: a node with a [type], a [range] and
    the two optional children [getReturnType] follows.  An absent property
    is [None], as [undefined] in the tree. *)
#[warnings="-register-all"] Inductive Node : Type :=
  mkNode {
      type : AST_NODE_TYPES.t;
      range : Range;
      typeAnnotation : option Node;
      returnType : option Node
    }.

(** A parameter of a signature; only its type annotation is read. *)
Record Param : Type :=
  mkParam {
      param_type : AST_NODE_TYPES.t;
      param_typeAnnotation : option Node
    }.

(** A member of an interface body or of a type literal. *)
Record TypeElement : Type :=
  mkTypeElement {
      member_type : AST_NODE_TYPES.t;
      member_range : Range;
      member_params : list Param;
      member_returnType : option Node
    }.

Record IdentifierNode : Type :=
  mkIdentifier {
      name : string;
      id_range : Range
    }.

(** The expression of an extends clause: an identifier carries a name. *)
Record Expression : Type :=
  mkExpression {
      expr_type : AST_NODE_TYPES.t;
      expr_name : option string
    }.

Record TSInterfaceHeritage : Type :=
  mkHeritage { expression : Expression }.

Record TSInterfaceDeclaration : Type :=
  mkInterface {
      interface_range : Range;
      id : IdentifierNode;
      typeParameters : option Range;
      extends : option (list TSInterfaceHeritage);
      body : list TypeElement;
      interface_parent : option AST_NODE_TYPES.t
    }.

Record TSTypeLiteral : Type :=
  mkTypeLiteral {
      literal_range : Range;
      members : list TypeElement;
      literal_parent : option AST_NODE_TYPES.t
    }.

(** The node that encloses the signature: [parent] in [renderSuggestion],
    [node] in [checkMember]. *)
Inductive EnclosingNode : Type :=
| Interface (d : TSInterfaceDeclaration)
| TypeLiteral (l : TSTypeLiteral).

Definition node_type (n : EnclosingNode) : AST_NODE_TYPES.t :=
  match n with
  | Interface _ => AST_NODE_TYPES.TSInterfaceDeclaration
  | TypeLiteral _ => AST_NODE_TYPES.TSTypeLiteral
  end.

Definition node_range (n : EnclosingNode) : Range :=
  match n with
  | Interface d => interface_range d
  | TypeLiteral l => literal_range l
  end.

(** [parent.id]: a type literal has none. *)
Definition node_id (n : EnclosingNode) : option IdentifierNode :=
  match n with
  | Interface d => Some (id d)
  | TypeLiteral _ => None
  end.

(** [parent.id.name]: reading [name] of an absent [id] throws. *)
Definition node_id_name (n : EnclosingNode) : Result string :=
  match node_id n with
  | Some i => Ok (name i)
  | None => TypeError
  end.

Definition node_typeParameters (n : EnclosingNode) : option Range :=
  match n with
  | Interface d => typeParameters d
  | TypeLiteral _ => None
  end.

(** [parent.parent], of which only the type is read. *)
Definition node_parent (n : EnclosingNode) : option AST_NODE_TYPES.t :=
  match n with
  | Interface d => interface_parent d
  | TypeLiteral l => literal_parent l
  end.

(** ** The host's source code object *)

Record Token : Type :=
  mkToken {
      token_type : AST_TOKEN_TYPES.t;
      value : string;
      token_range : Range
    }.

Record SourceCode : Type :=
  mkSourceCode {
      getText : string;
      tokens : list Token
    }.

(** [sourceCode.getTokens(node)] of ESLint: the tokens of the file that lie
    within the node's range, in source order.  This is what ESLint returns
    for a range that starts where a token starts and ends where a token
    ends, as the range of a parsed node does; for any other range ESLint
    may start from the first token of the file.  The statements that depend
    on which tokens are returned assume such a range. *)
Definition getTokens (sourceCode : SourceCode) (r : Range) : list Token :=
  filter (fun t => (fst r <=? fst (token_range t))
                   && (snd (token_range t) <=? snd r))
         (tokens sourceCode).

(** ** The rule *)

Definition possibleReturnThisTypeHolders : list AST_NODE_TYPES.t :=
  [ AST_NODE_TYPES.TSTypeReference;
    AST_NODE_TYPES.TSThisType;
    AST_NODE_TYPES.TSFunctionType;
    AST_NODE_TYPES.TSTypeAnnotation ].

Definition has (s : list AST_NODE_TYPES.t) (x : AST_NODE_TYPES.t) : bool :=
  existsb (AST_NODE_TYPES.eqb x) s.

(** [getReturnType]: the range of the [this] type the node holds, or [null].
    A node of type [TSTypeAnnotation] whose annotation is not [this] falls
    through the [TSFunctionType] test, which it fails, to [return null]. *)
Fixpoint getReturnType (node : Node) : Result (option Range) :=
  if negb (has possibleReturnThisTypeHolders (type node)) then Ok None
  else if AST_NODE_TYPES.eqb (type node) AST_NODE_TYPES.TSThisType then
    Ok (Some (range node))
  else if AST_NODE_TYPES.eqb (type node) AST_NODE_TYPES.TSTypeAnnotation then
    match typeAnnotation node with
    | None => TypeError
    | Some inner =>
        if AST_NODE_TYPES.eqb (type inner) AST_NODE_TYPES.TSThisType
        then Ok (Some (range inner))
        else Ok None
    end
  else if AST_NODE_TYPES.eqb (type node) AST_NODE_TYPES.TSFunctionType then
    match returnType node with
    | None => TypeError
    | Some r => getReturnType r
    end
  else Ok None.

(** A call of [getReturnType] on a value that may be [undefined]: the
    function reads [node.type] first. *)
Definition getReturnType_of (node : option Node) : Result (option Range) :=
  match node with
  | None => TypeError
  | Some n => getReturnType n
  end.

Definition name_is_not (n : option string) (s : string) : bool :=
  match n with
  | Some x => negb (String.eqb x s)
  | None => true
  end.

Definition hasOneSupertype (node : TSInterfaceDeclaration) : bool :=
  match extends node with
  | None => false
  | Some ext =>
      if Nat.eqb (List.length ext) 0 then false
      else if negb (Nat.eqb (List.length ext) 1) then true
      else match nth_error ext 0 with
           | None => true
           | Some h =>
               let expr := expression h in
               negb (AST_NODE_TYPES.eqb (expr_type expr)
                                        AST_NODE_TYPES.Identifier)
               || name_is_not (expr_name expr) "Function"
           end
  end.

Definition shouldWrapSuggestion (parent : option AST_NODE_TYPES.t) : bool :=
  match parent with
  | None => false
  | Some AST_NODE_TYPES.TSUnionType
  | Some AST_NODE_TYPES.TSIntersectionType
  | Some AST_NODE_TYPES.TSArrayType => true
  | Some _ => false
  end.

(** [param.typeAnnotation?.typeAnnotation?.type === TSThisType] *)
Definition param_is_this (param : Param) : bool :=
  match param_typeAnnotation param with
  | None => false
  | Some a =>
      match typeAnnotation a with
      | None => false
      | Some t => AST_NODE_TYPES.eqb (type t) AST_NODE_TYPES.TSThisType
      end
  end.

Definition renderSuggestion (sourceCode : SourceCode) (call : TypeElement)
  (parent : EnclosingNode) : Result string :=
  let start := fst (member_range call) in
  call_returnType <-
    match member_returnType call with
    | Some r => Ok r
    | None => TypeError
    end ;;
  let colonPos := fst (range call_returnType) - start in
  let text :=
    JS.slice (getText sourceCode) start (Some (snd (member_range call))) in
  returnType <- getReturnType_of (typeAnnotation call_returnType) ;;
  let lhs := JS.slice text 0 (Some colonPos) in
  let rhs := JS.slice text (colonPos + 1) None in
  rhs <-
    match returnType with
    | Some r =>
        if String.eqb (JS.slice (getText sourceCode) (fst r) (Some (snd r)))
                      "this"
        then parent_id_name <- node_id_name parent ;;
             Ok (JS.replace rhs "this" parent_id_name)
        else Ok rhs
    | None => Ok rhs
    end ;;
  lhs <-
    (if (0 <? List.length (member_params call))%nat then
       fold_left
         (fun acc param =>
            lhs <- acc ;;
            if param_is_this param
            then parent_id_name <- node_id_name parent ;;
                 Ok (JS.replace lhs "this" parent_id_name)
            else Ok lhs)
         (member_params call) (Ok lhs)
     else Ok lhs) ;;
  let suggestion := lhs ++ " =>" ++ rhs in
  let suggestion :=
    if shouldWrapSuggestion (node_parent parent)
    then "(" ++ suggestion ++ ")"
    else suggestion in
  match parent with
  | Interface d =>
      match typeParameters d with
      | Some tp =>
          Ok ("type "
                ++ JS.slice (getText sourceCode) (fst (id_range (id d)))
                     (Some (snd tp))
                ++ " = " ++ suggestion)
      | None => Ok ("type " ++ name (id d) ++ " = " ++ suggestion)
      end
  | TypeLiteral _ =>
      Ok (if JS.endsWith suggestion ";"
          then JS.slice suggestion 0 (Some (-1))
          else suggestion)
  end.

(** What [context.report] receives; [fix] is the range and text handed to
    [fixer.replaceTextRange]. *)
Record ReportDescriptor : Type :=
  mkReport {
      report_node : TypeElement;
      messageId : string;
      data_type : string;
      data_sigSuggestion : string;
      fix_range : Range;
      fix_text : string
    }.

Definition is_interface_keyword (token : Token) : bool :=
  AST_TOKEN_TYPES.eqb (token_type token) AST_TOKEN_TYPES.Keyword
  && String.eqb (value token) "interface".

Definition is_signature_with_returnType (member : TypeElement) : bool :=
  (AST_NODE_TYPES.eqb (member_type member)
                      AST_NODE_TYPES.TSCallSignatureDeclaration
   || AST_NODE_TYPES.eqb (member_type member)
                         AST_NODE_TYPES.TSConstructSignatureDeclaration)
  && match member_returnType member with
     | Some _ => true
     | None => false
     end.

(** [checkMember]: [Ok None] when nothing is reported, [Ok (Some r)] for the
    one report, [TypeError] when the body throws before reporting. *)
Definition checkMember (sourceCode : SourceCode) (member : TypeElement)
  (node : EnclosingNode) : Result (option ReportDescriptor) :=
  if is_signature_with_returnType member then
    suggestion <- renderSuggestion sourceCode member node ;;
    fixStart <-
      (if AST_NODE_TYPES.eqb (node_type node) AST_NODE_TYPES.TSTypeLiteral
       then Ok (fst (node_range node))
       else match filter is_interface_keyword
                         (getTokens sourceCode (node_range node)) with
            | token :: _ => Ok (fst (token_range token))
            | [] => TypeError
            end) ;;
    Ok (Some {| report_node := member;
                messageId := "functionTypeOverCallableType";
                data_type :=
                  if AST_NODE_TYPES.eqb (node_type node)
                                        AST_NODE_TYPES.TSTypeLiteral
                  then "Type literal" else "Interface";
                data_sigSuggestion := suggestion;
                fix_range := (fixStart, snd (node_range node));
                fix_text := suggestion |})
  else Ok None.

(** The visitor entry for [TSInterfaceDeclaration]. *)
Definition visitInterfaceDeclaration (sourceCode : SourceCode)
  (node : TSInterfaceDeclaration) : Result (option ReportDescriptor) :=
  if negb (hasOneSupertype node) && Nat.eqb (List.length (body node)) 1 then
    match nth_error (body node) 0 with
    | Some member => checkMember sourceCode member (Interface node)
    | None => TypeError
    end
  else Ok None.

(** The visitor entry for the selector [TSTypeLiteral[members.length = 1]]. *)
Definition visitTypeLiteral (sourceCode : SourceCode) (node : TSTypeLiteral)
  : Result (option ReportDescriptor) :=
  if Nat.eqb (List.length (members node)) 1 then
    match nth_error (members node) 0 with
    | Some member => checkMember sourceCode member (TypeLiteral node)
    | None => TypeError
    end
  else Ok None.

(** ** Values named in the statements

    The intermediate values of [renderSuggestion], in the order the function
    computes them, and the shape conditions a parsed tree meets. *)

(** [text]: the source of the signature. *)
Definition signatureText (sourceCode : SourceCode) (call : TypeElement)
  : string :=
  JS.slice (getText sourceCode) (fst (member_range call))
    (Some (snd (member_range call))).

Definition colonPos (call : TypeElement) (call_returnType : Node) : Z :=
  fst (range call_returnType) - fst (member_range call).

(** [lhs] and [rhs] as first cut: the text before the colon of the return
    type and the text after it. *)
Definition lhsText (sourceCode : SourceCode) (call : TypeElement)
  (call_returnType : Node) : string :=
  JS.slice (signatureText sourceCode call) 0
    (Some (colonPos call call_returnType)).

Definition rhsText (sourceCode : SourceCode) (call : TypeElement)
  (call_returnType : Node) : string :=
  JS.slice (signatureText sourceCode call)
    (colonPos call call_returnType + 1) None.

(** The text of a range is [this]. *)
Definition reads_this (sourceCode : SourceCode) (r : Range) : bool :=
  String.eqb (JS.slice (getText sourceCode) (fst r) (Some (snd r))) "this".

(** [rhs] after the return position was handled with the name [n]. *)
Definition rhsRewritten (sourceCode : SourceCode) (resolved : option Range)
  (n rhs : string) : string :=
  match resolved with
  | Some r => if reads_this sourceCode r then JS.replace rhs "this" n else rhs
  | None => rhs
  end.

(** [lhs] after the parameters were visited with the name [n]. *)
Definition lhsRewritten (params : list Param) (n lhs : string) : string :=
  fold_left
    (fun lhs param =>
       if param_is_this param then JS.replace lhs "this" n else lhs)
    params lhs.

Definition parenthesize (s : string) : string := "(" ++ s ++ ")".

(** The suggestion after the test on the parent's type. *)
Definition wrapped (p : option AST_NODE_TYPES.t) (s : string) : string :=
  if shouldWrapSuggestion p then parenthesize s else s.

(** The type alias built for an interface declaration. *)
Definition aliasText (sourceCode : SourceCode) (d : TSInterfaceDeclaration)
  (suggestion : string) : string :=
  match typeParameters d with
  | Some tp =>
      "type "
        ++ JS.slice (getText sourceCode) (fst (id_range (id d)))
             (Some (snd tp))
        ++ " = " ++ suggestion
  | None => "type " ++ name (id d) ++ " = " ++ suggestion
  end.

(** The text returned for a type literal. *)
Definition literalText (suggestion : string) : string :=
  if JS.endsWith suggestion ";"
  then JS.slice suggestion 0 (Some (-1))
  else suggestion.

Definition declarationText (sourceCode : SourceCode) (parent : EnclosingNode)
  (suggestion : string) : string :=
  match parent with
  | Interface d => aliasText sourceCode d suggestion
  | TypeLiteral _ => literalText suggestion
  end.

(** A replacement text without a dollar sign. *)
Fixpoint dollar_free (s : string) : bool :=
  match s with
  | EmptyString => true
  | String c s' => negb (Ascii.eqb c "$") && dollar_free s'
  end.

(** The first occurrence of [pat] in [s] replaced by the text [n] itself. *)
Definition substituteFirst (pat n s : string) : string :=
  match JS.splitFirst pat s with
  | Some (before, after) => before ++ n ++ after
  | None => s
  end.

(** A tree as the parser builds it: a type annotation has its annotated
    type and a function type has its return type, at every level. *)
Fixpoint children_present (n : Node) : bool :=
  (if AST_NODE_TYPES.eqb (type n) AST_NODE_TYPES.TSTypeAnnotation
   then match typeAnnotation n with Some _ => true | None => false end
   else true)
  && (if AST_NODE_TYPES.eqb (type n) AST_NODE_TYPES.TSFunctionType
      then match returnType n with Some _ => true | None => false end
      else true)
  && match typeAnnotation n with
     | Some a => children_present a
     | None => true
     end
  && match returnType n with
     | Some r => children_present r
     | None => true
     end.

(** A written return type is a type annotation node. *)
Definition returnType_well_formed (member : TypeElement) : bool :=
  match member_returnType member with
  | None => true
  | Some r =>
      AST_NODE_TYPES.eqb (type r) AST_NODE_TYPES.TSTypeAnnotation
      && children_present r
  end.

(** The tokens of an interface declaration include its keyword. *)
Definition has_interface_keyword (sourceCode : SourceCode)
  (d : TSInterfaceDeclaration) : bool :=
  existsb is_interface_keyword (getTokens sourceCode (interface_range d)).

Definition conforming_interface (sourceCode : SourceCode)
  (d : TSInterfaceDeclaration) : bool :=
  has_interface_keyword sourceCode d
  && forallb returnType_well_formed (body d).

(** Shapes of the extends clauses. *)
Definition no_extends (d : TSInterfaceDeclaration) : Prop :=
  extends d = None \/ extends d = Some [].

Definition extends_only (d : TSInterfaceDeclaration) (n : string) : Prop :=
  exists h, extends d = Some [h]
            /\ expr_type (expression h) = AST_NODE_TYPES.Identifier
            /\ expr_name (expression h) = Some n.

Definition extends_several (d : TSInterfaceDeclaration) : Prop :=
  exists ext, extends d = Some ext /\ (1 < List.length ext)%nat.

(** The member is a call or construct signature with a written return
    type. *)
Definition callable_with_returnType (member : TypeElement) : Prop :=
  (member_type member = AST_NODE_TYPES.TSCallSignatureDeclaration
   \/ member_type member = AST_NODE_TYPES.TSConstructSignatureDeclaration)
  /\ member_returnType member <> None.

(** The parent is a union, intersection or array type. *)
Definition union_intersection_or_array (p : option AST_NODE_TYPES.t) : Prop :=
  p = Some AST_NODE_TYPES.TSUnionType
  \/ p = Some AST_NODE_TYPES.TSIntersectionType
  \/ p = Some AST_NODE_TYPES.TSArrayType.

(** The value of [suggestion] when [renderSuggestion] has assembled the
    arrow, before the parent's type is tested: the first statements of the
    function, up to the template [lhs =>rhs]. *)
Definition arrowFunctionText (sourceCode : SourceCode) (call : TypeElement)
  (parent : EnclosingNode) : Result string :=
  let start := fst (member_range call) in
  call_returnType <-
    match member_returnType call with
    | Some r => Ok r
    | None => TypeError
    end ;;
  let colonPos := fst (range call_returnType) - start in
  let text :=
    JS.slice (getText sourceCode) start (Some (snd (member_range call))) in
  returnType <- getReturnType_of (typeAnnotation call_returnType) ;;
  let lhs := JS.slice text 0 (Some colonPos) in
  let rhs := JS.slice text (colonPos + 1) None in
  rhs <-
    match returnType with
    | Some r =>
        if String.eqb (JS.slice (getText sourceCode) (fst r) (Some (snd r)))
                      "this"
        then parent_id_name <- node_id_name parent ;;
             Ok (JS.replace rhs "this" parent_id_name)
        else Ok rhs
    | None => Ok rhs
    end ;;
  lhs <-
    (if (0 <? List.length (member_params call))%nat then
       fold_left
         (fun acc param =>
            lhs <- acc ;;
            if param_is_this param
            then parent_id_name <- node_id_name parent ;;
                 Ok (JS.replace lhs "this" parent_id_name)
            else Ok lhs)
         (member_params call) (Ok lhs)
     else Ok lhs) ;;
  Ok (lhs ++ " =>" ++ rhs).

(** The same enclosing node placed under another parent. *)
Definition with_parent (n : EnclosingNode) (p : option AST_NODE_TYPES.t)
  : EnclosingNode :=
  match n with
  | Interface d =>
      Interface (mkInterface (interface_range d) (id d) (typeParameters d)
                   (extends d) (body d) p)
  | TypeLiteral l => TypeLiteral (mkTypeLiteral (literal_range l) (members l) p)
  end.

(** The positions of a [this] type that the return position resolves, as the
    specification lists them: written directly, or wrapped in one type
    annotation ... *)
Inductive this_written : Node -> Range -> Prop :=
| this_direct (n : Node) :
    type n = AST_NODE_TYPES.TSThisType -> this_written n (range n)
| this_annotated (n u : Node) :
    type n = AST_NODE_TYPES.TSTypeAnnotation ->
    typeAnnotation n = Some u ->
    type u = AST_NODE_TYPES.TSThisType ->
    this_written n (range u).

(** ... or as the return type of one nested function type. *)
Inductive this_resolved : Node -> Range -> Prop :=
| resolved_written (n : Node) (r : Range) :
    this_written n r -> this_resolved n r
| resolved_returned (n a : Node) (r : Range) :
    type n = AST_NODE_TYPES.TSFunctionType ->
    returnType n = Some a ->
    this_written a r ->
    this_resolved n r.

(** A function type whose return type is again a function type. *)
Definition nested_deeper (n : Node) : Prop :=
  type n = AST_NODE_TYPES.TSFunctionType
  /\ exists a u,
      returnType n = Some a
      /\ type a = AST_NODE_TYPES.TSTypeAnnotation
      /\ typeAnnotation a = Some u
      /\ type u = AST_NODE_TYPES.TSFunctionType.


(** A child that [getReturnType] reads is absent on the way it walks: a
    type annotation without its type, a function type without its return
    type, or a return type that in turn misses one. *)
Inductive missing_child : Node -> Prop :=
| missing_annotation (n : Node) :
    type n = AST_NODE_TYPES.TSTypeAnnotation ->
    typeAnnotation n = None ->
    missing_child n
| missing_return (n : Node) :
    type n = AST_NODE_TYPES.TSFunctionType ->
    returnType n = None ->
    missing_child n
| missing_below (n a : Node) :
    type n = AST_NODE_TYPES.TSFunctionType ->
    returnType n = Some a ->
    missing_child a ->
    missing_child n.

(** A [this] type at the end of a chain of [returnType] children of
    function types. *)
Inductive this_reached : Node -> Range -> Prop :=
| reached_written (n : Node) (r : Range) :
    this_written n r -> this_reached n r
| reached_returned (n a : Node) (r : Range) :
    type n = AST_NODE_TYPES.TSFunctionType ->
    returnType n = Some a ->
    this_reached a r ->
    this_reached n r.

(** The signature makes [renderSuggestion] read the name of the enclosing
    node: its return position resolves a range that reads [this], or one of
    its parameters is typed [this]. *)
Definition reads_parent_name (sourceCode : SourceCode)
  (resolved : option Range) (call : TypeElement) : bool :=
  match resolved with
  | Some r => reads_this sourceCode r
  | None => false
  end
  || existsb param_is_this (member_params call).

(** The range starts where a token of the file starts and ends where one
    ends. *)
Definition token_aligned (sourceCode : SourceCode) (r : Range) : Prop :=
  (exists t, In t (tokens sourceCode) /\ fst (token_range t) = fst r)
  /\ (exists t, In t (tokens sourceCode) /\ snd (token_range t) = snd r).

(** The token lies within the range. *)
Definition token_within (r : Range) (t : Token) : Prop :=
  fst r <= fst (token_range t) /\ snd (token_range t) <= snd r.

(** ** Concrete programs

    Each program is given as its source text, its tokens and the part of the
    tree the rule reads, with the ranges the parser assigns: a return type
    annotation starts at its colon, a function type's at its arrow. *)

Module Examples.

Definition leaf (t : AST_NODE_TYPES.t) (r : Range) : Node :=
  mkNode t r None None.

Definition annotation (r : Range) (inner : Node) : Node :=
  mkNode AST_NODE_TYPES.TSTypeAnnotation r (Some inner) None.

Definition functionType (r : Range) (ret : Node) : Node :=
  mkNode AST_NODE_TYPES.TSFunctionType r None (Some ret).

Definition callSignature (r : Range) (params : list Param) (ret : Node)
  : TypeElement :=
  mkTypeElement AST_NODE_TYPES.TSCallSignatureDeclaration r params
    (Some ret).

Definition identifierParam (a : Node) : Param :=
  mkParam AST_NODE_TYPES.Identifier (Some a).

Definition extendsIdentifier (n : string) : TSInterfaceHeritage :=
  mkHeritage (mkExpression AST_NODE_TYPES.Identifier (Some n)).

(** [interface Foo { (): void }] *)
Module FooVoid.
Definition text : string := "interface Foo { (): void }".
Definition sourceCode : SourceCode :=
  mkSourceCode text
    [ mkToken AST_TOKEN_TYPES.Keyword "interface" (0, 9);
      mkToken AST_TOKEN_TYPES.Identifier "Foo" (10, 13);
      mkToken AST_TOKEN_TYPES.Punctuator "{" (14, 15);
      mkToken AST_TOKEN_TYPES.Punctuator "(" (16, 17);
      mkToken AST_TOKEN_TYPES.Punctuator ")" (17, 18);
      mkToken AST_TOKEN_TYPES.Punctuator ":" (18, 19);
      mkToken AST_TOKEN_TYPES.Keyword "void" (20, 24);
      mkToken AST_TOKEN_TYPES.Punctuator "}" (25, 26) ].
Definition member : TypeElement :=
  callSignature (16, 24) []
    (annotation (18, 24) (leaf AST_NODE_TYPES.TSVoidKeyword (20, 24))).
Definition node : TSInterfaceDeclaration :=
  mkInterface (0, 26) (mkIdentifier "Foo" (10, 13)) None None [member]
    (Some AST_NODE_TYPES.Program).
End FooVoid.

(** [interface Foo extends Function { (): void }] *)
Module FooExtendsFunction.
Definition text : string := "interface Foo extends Function { (): void }".
Definition sourceCode : SourceCode :=
  mkSourceCode text
    [ mkToken AST_TOKEN_TYPES.Keyword "interface" (0, 9);
      mkToken AST_TOKEN_TYPES.Identifier "Foo" (10, 13);
      mkToken AST_TOKEN_TYPES.Keyword "extends" (14, 21);
      mkToken AST_TOKEN_TYPES.Identifier "Function" (22, 30);
      mkToken AST_TOKEN_TYPES.Punctuator "{" (31, 32);
      mkToken AST_TOKEN_TYPES.Punctuator "(" (33, 34);
      mkToken AST_TOKEN_TYPES.Punctuator ")" (34, 35);
      mkToken AST_TOKEN_TYPES.Punctuator ":" (35, 36);
      mkToken AST_TOKEN_TYPES.Keyword "void" (37, 41);
      mkToken AST_TOKEN_TYPES.Punctuator "}" (42, 43) ].
Definition member : TypeElement :=
  callSignature (33, 41) []
    (annotation (35, 41) (leaf AST_NODE_TYPES.TSVoidKeyword (37, 41))).
Definition node : TSInterfaceDeclaration :=
  mkInterface (0, 43) (mkIdentifier "Foo" (10, 13)) None
    (Some [extendsIdentifier "Function"]) [member]
    (Some AST_NODE_TYPES.Program).
End FooExtendsFunction.

(** [interface Foo extends Bar { (): void }] *)
Module FooExtendsBar.
Definition text : string := "interface Foo extends Bar { (): void }".
Definition sourceCode : SourceCode :=
  mkSourceCode text
    [ mkToken AST_TOKEN_TYPES.Keyword "interface" (0, 9);
      mkToken AST_TOKEN_TYPES.Identifier "Foo" (10, 13);
      mkToken AST_TOKEN_TYPES.Keyword "extends" (14, 21);
      mkToken AST_TOKEN_TYPES.Identifier "Bar" (22, 25);
      mkToken AST_TOKEN_TYPES.Punctuator "{" (26, 27);
      mkToken AST_TOKEN_TYPES.Punctuator "(" (28, 29);
      mkToken AST_TOKEN_TYPES.Punctuator ")" (29, 30);
      mkToken AST_TOKEN_TYPES.Punctuator ":" (30, 31);
      mkToken AST_TOKEN_TYPES.Keyword "void" (32, 36);
      mkToken AST_TOKEN_TYPES.Punctuator "}" (37, 38) ].
Definition member : TypeElement :=
  callSignature (28, 36) []
    (annotation (30, 36) (leaf AST_NODE_TYPES.TSVoidKeyword (32, 36))).
Definition node : TSInterfaceDeclaration :=
  mkInterface (0, 38) (mkIdentifier "Foo" (10, 13)) None
    (Some [extendsIdentifier "Bar"]) [member]
    (Some AST_NODE_TYPES.Program).
End FooExtendsBar.

(** [interface Foo { (): this }] *)
Module FooThis.
Definition text : string := "interface Foo { (): this }".
Definition sourceCode : SourceCode :=
  mkSourceCode text
    [ mkToken AST_TOKEN_TYPES.Keyword "interface" (0, 9);
      mkToken AST_TOKEN_TYPES.Identifier "Foo" (10, 13);
      mkToken AST_TOKEN_TYPES.Punctuator "{" (14, 15);
      mkToken AST_TOKEN_TYPES.Punctuator "(" (16, 17);
      mkToken AST_TOKEN_TYPES.Punctuator ")" (17, 18);
      mkToken AST_TOKEN_TYPES.Punctuator ":" (18, 19);
      mkToken AST_TOKEN_TYPES.Keyword "this" (20, 24);
      mkToken AST_TOKEN_TYPES.Punctuator "}" (25, 26) ].
Definition member : TypeElement :=
  callSignature (16, 24) []
    (annotation (18, 24) (leaf AST_NODE_TYPES.TSThisType (20, 24))).
Definition node : TSInterfaceDeclaration :=
  mkInterface (0, 26) (mkIdentifier "Foo" (10, 13)) None None [member]
    (Some AST_NODE_TYPES.Program).
End FooThis.

(** [interface Foo { (x: this): void }] *)
Module FooParamThis.
Definition text : string := "interface Foo { (x: this): void }".
Definition sourceCode : SourceCode :=
  mkSourceCode text
    [ mkToken AST_TOKEN_TYPES.Keyword "interface" (0, 9);
      mkToken AST_TOKEN_TYPES.Identifier "Foo" (10, 13);
      mkToken AST_TOKEN_TYPES.Punctuator "{" (14, 15);
      mkToken AST_TOKEN_TYPES.Punctuator "(" (16, 17);
      mkToken AST_TOKEN_TYPES.Identifier "x" (17, 18);
      mkToken AST_TOKEN_TYPES.Punctuator ":" (18, 19);
      mkToken AST_TOKEN_TYPES.Keyword "this" (20, 24);
      mkToken AST_TOKEN_TYPES.Punctuator ")" (24, 25);
      mkToken AST_TOKEN_TYPES.Punctuator ":" (25, 26);
      mkToken AST_TOKEN_TYPES.Keyword "void" (27, 31);
      mkToken AST_TOKEN_TYPES.Punctuator "}" (32, 33) ].
Definition member : TypeElement :=
  callSignature (16, 31)
    [ identifierParam
        (annotation (18, 24) (leaf AST_NODE_TYPES.TSThisType (20, 24))) ]
    (annotation (25, 31) (leaf AST_NODE_TYPES.TSVoidKeyword (27, 31))).
Definition node : TSInterfaceDeclaration :=
  mkInterface (0, 33) (mkIdentifier "Foo" (10, 13)) None None [member]
    (Some AST_NODE_TYPES.Program).
End FooParamThis.

(** [interface Foo<T> { (x: T): T }] *)
Module FooGeneric.
Definition text : string := "interface Foo<T> { (x: T): T }".
Definition sourceCode : SourceCode :=
  mkSourceCode text
    [ mkToken AST_TOKEN_TYPES.Keyword "interface" (0, 9);
      mkToken AST_TOKEN_TYPES.Identifier "Foo" (10, 13);
      mkToken AST_TOKEN_TYPES.Punctuator "<" (13, 14);
      mkToken AST_TOKEN_TYPES.Identifier "T" (14, 15);
      mkToken AST_TOKEN_TYPES.Punctuator ">" (15, 16);
      mkToken AST_TOKEN_TYPES.Punctuator "{" (17, 18);
      mkToken AST_TOKEN_TYPES.Punctuator "(" (19, 20);
      mkToken AST_TOKEN_TYPES.Identifier "x" (20, 21);
      mkToken AST_TOKEN_TYPES.Punctuator ":" (21, 22);
      mkToken AST_TOKEN_TYPES.Identifier "T" (23, 24);
      mkToken AST_TOKEN_TYPES.Punctuator ")" (24, 25);
      mkToken AST_TOKEN_TYPES.Punctuator ":" (25, 26);
      mkToken AST_TOKEN_TYPES.Identifier "T" (27, 28);
      mkToken AST_TOKEN_TYPES.Punctuator "}" (29, 30) ].
Definition member : TypeElement :=
  callSignature (19, 28)
    [ identifierParam
        (annotation (21, 24)
           (leaf AST_NODE_TYPES.TSTypeReference (23, 24))) ]
    (annotation (25, 28) (leaf AST_NODE_TYPES.TSTypeReference (27, 28))).
Definition node : TSInterfaceDeclaration :=
  mkInterface (0, 30) (mkIdentifier "Foo" (10, 13)) (Some (13, 16)) None
    [member] (Some AST_NODE_TYPES.Program).
End FooGeneric.

(** [interface Foo { (): (thisArg: string) => this }] *)
Module FooNestedThisArg.
Definition text : string :=
  "interface Foo { (): (thisArg: string) => this }".
Definition sourceCode : SourceCode :=
  mkSourceCode text
    [ mkToken AST_TOKEN_TYPES.Keyword "interface" (0, 9);
      mkToken AST_TOKEN_TYPES.Identifier "Foo" (10, 13);
      mkToken AST_TOKEN_TYPES.Punctuator "{" (14, 15);
      mkToken AST_TOKEN_TYPES.Punctuator "(" (16, 17);
      mkToken AST_TOKEN_TYPES.Punctuator ")" (17, 18);
      mkToken AST_TOKEN_TYPES.Punctuator ":" (18, 19);
      mkToken AST_TOKEN_TYPES.Punctuator "(" (20, 21);
      mkToken AST_TOKEN_TYPES.Identifier "thisArg" (21, 28);
      mkToken AST_TOKEN_TYPES.Punctuator ":" (28, 29);
      mkToken AST_TOKEN_TYPES.Identifier "string" (30, 36);
      mkToken AST_TOKEN_TYPES.Punctuator ")" (36, 37);
      mkToken AST_TOKEN_TYPES.Punctuator "=>" (38, 40);
      mkToken AST_TOKEN_TYPES.Keyword "this" (41, 45);
      mkToken AST_TOKEN_TYPES.Punctuator "}" (46, 47) ].
Definition thisToken : Range := (41, 45).
Definition inner : Node :=
  functionType (20, 45)
    (annotation (38, 45) (leaf AST_NODE_TYPES.TSThisType thisToken)).
Definition member : TypeElement :=
  callSignature (16, 45) [] (annotation (18, 45) inner).
Definition node : TSInterfaceDeclaration :=
  mkInterface (0, 47) (mkIdentifier "Foo" (10, 13)) None None [member]
    (Some AST_NODE_TYPES.Program).
End FooNestedThisArg.

(** [interface Foo { (): /* this */ this }] *)
Module FooCommentThis.
Definition text : string := "interface Foo { (): /* this */ this }".
Definition sourceCode : SourceCode :=
  mkSourceCode text
    [ mkToken AST_TOKEN_TYPES.Keyword "interface" (0, 9);
      mkToken AST_TOKEN_TYPES.Identifier "Foo" (10, 13);
      mkToken AST_TOKEN_TYPES.Punctuator "{" (14, 15);
      mkToken AST_TOKEN_TYPES.Punctuator "(" (16, 17);
      mkToken AST_TOKEN_TYPES.Punctuator ")" (17, 18);
      mkToken AST_TOKEN_TYPES.Punctuator ":" (18, 19);
      mkToken AST_TOKEN_TYPES.Keyword "this" (31, 35);
      mkToken AST_TOKEN_TYPES.Punctuator "}" (36, 37) ].
Definition thisToken : Range := (31, 35).
Definition member : TypeElement :=
  callSignature (16, 35) []
    (annotation (18, 35) (leaf AST_NODE_TYPES.TSThisType thisToken)).
Definition node : TSInterfaceDeclaration :=
  mkInterface (0, 37) (mkIdentifier "Foo" (10, 13)) None None [member]
    (Some AST_NODE_TYPES.Program).
End FooCommentThis.

(** [interface $$ { (x: this): void }] *)
Module DollarParamThis.
Definition text : string := "interface $$ { (x: this): void }".
Definition sourceCode : SourceCode :=
  mkSourceCode text
    [ mkToken AST_TOKEN_TYPES.Keyword "interface" (0, 9);
      mkToken AST_TOKEN_TYPES.Identifier "$$" (10, 12);
      mkToken AST_TOKEN_TYPES.Punctuator "{" (13, 14);
      mkToken AST_TOKEN_TYPES.Punctuator "(" (15, 16);
      mkToken AST_TOKEN_TYPES.Identifier "x" (16, 17);
      mkToken AST_TOKEN_TYPES.Punctuator ":" (17, 18);
      mkToken AST_TOKEN_TYPES.Keyword "this" (19, 23);
      mkToken AST_TOKEN_TYPES.Punctuator ")" (23, 24);
      mkToken AST_TOKEN_TYPES.Punctuator ":" (24, 25);
      mkToken AST_TOKEN_TYPES.Keyword "void" (26, 30);
      mkToken AST_TOKEN_TYPES.Punctuator "}" (31, 32) ].
Definition member : TypeElement :=
  callSignature (15, 30)
    [ identifierParam
        (annotation (17, 23) (leaf AST_NODE_TYPES.TSThisType (19, 23))) ]
    (annotation (24, 30) (leaf AST_NODE_TYPES.TSVoidKeyword (26, 30))).
Definition node : TSInterfaceDeclaration :=
  mkInterface (0, 32) (mkIdentifier "$$" (10, 12)) None None [member]
    (Some AST_NODE_TYPES.Program).
End DollarParamThis.

(** [declare interface Foo { (): void; }] *)
Module DeclareFoo.
Definition text : string := "declare interface Foo { (): void; }".
Definition sourceCode : SourceCode :=
  mkSourceCode text
    [ mkToken AST_TOKEN_TYPES.Identifier "declare" (0, 7);
      mkToken AST_TOKEN_TYPES.Keyword "interface" (8, 17);
      mkToken AST_TOKEN_TYPES.Identifier "Foo" (18, 21);
      mkToken AST_TOKEN_TYPES.Punctuator "{" (22, 23);
      mkToken AST_TOKEN_TYPES.Punctuator "(" (24, 25);
      mkToken AST_TOKEN_TYPES.Punctuator ")" (25, 26);
      mkToken AST_TOKEN_TYPES.Punctuator ":" (26, 27);
      mkToken AST_TOKEN_TYPES.Keyword "void" (28, 32);
      mkToken AST_TOKEN_TYPES.Punctuator ";" (32, 33);
      mkToken AST_TOKEN_TYPES.Punctuator "}" (34, 35) ].
Definition member : TypeElement :=
  callSignature (24, 33) []
    (annotation (26, 32) (leaf AST_NODE_TYPES.TSVoidKeyword (28, 32))).
Definition node : TSInterfaceDeclaration :=
  mkInterface (0, 35) (mkIdentifier "Foo" (18, 21)) None None [member]
    (Some AST_NODE_TYPES.Program).
End DeclareFoo.

(** [type U = { (): void } | string] *)
Module LiteralInUnion.
Definition text : string := "type U = { (): void } | string".
Definition sourceCode : SourceCode :=
  mkSourceCode text
    [ mkToken AST_TOKEN_TYPES.Identifier "type" (0, 4);
      mkToken AST_TOKEN_TYPES.Identifier "U" (5, 6);
      mkToken AST_TOKEN_TYPES.Punctuator "=" (7, 8);
      mkToken AST_TOKEN_TYPES.Punctuator "{" (9, 10);
      mkToken AST_TOKEN_TYPES.Punctuator "(" (11, 12);
      mkToken AST_TOKEN_TYPES.Punctuator ")" (12, 13);
      mkToken AST_TOKEN_TYPES.Punctuator ":" (13, 14);
      mkToken AST_TOKEN_TYPES.Keyword "void" (15, 19);
      mkToken AST_TOKEN_TYPES.Punctuator "}" (20, 21);
      mkToken AST_TOKEN_TYPES.Punctuator "|" (22, 23);
      mkToken AST_TOKEN_TYPES.Identifier "string" (24, 30) ].
Definition member : TypeElement :=
  callSignature (11, 19) []
    (annotation (13, 19) (leaf AST_NODE_TYPES.TSVoidKeyword (15, 19))).
Definition node : TSTypeLiteral :=
  mkTypeLiteral (9, 21) [member] (Some AST_NODE_TYPES.TSUnionType).
End LiteralInUnion.

(** [type F = { (): void }] *)
Module LiteralStandalone.
Definition text : string := "type F = { (): void }".
Definition sourceCode : SourceCode :=
  mkSourceCode text
    [ mkToken AST_TOKEN_TYPES.Identifier "type" (0, 4);
      mkToken AST_TOKEN_TYPES.Identifier "F" (5, 6);
      mkToken AST_TOKEN_TYPES.Punctuator "=" (7, 8);
      mkToken AST_TOKEN_TYPES.Punctuator "{" (9, 10);
      mkToken AST_TOKEN_TYPES.Punctuator "(" (11, 12);
      mkToken AST_TOKEN_TYPES.Punctuator ")" (12, 13);
      mkToken AST_TOKEN_TYPES.Punctuator ":" (13, 14);
      mkToken AST_TOKEN_TYPES.Keyword "void" (15, 19);
      mkToken AST_TOKEN_TYPES.Punctuator "}" (20, 21) ].
Definition member : TypeElement :=
  callSignature (11, 19) []
    (annotation (13, 19) (leaf AST_NODE_TYPES.TSVoidKeyword (15, 19))).
Definition node : TSTypeLiteral :=
  mkTypeLiteral (9, 21) [member]
    (Some AST_NODE_TYPES.TSTypeAliasDeclaration).
End LiteralStandalone.

(** [type T = { (): this }] *)
Module LiteralThis.
Definition text : string := "type T = { (): this }".
Definition sourceCode : SourceCode :=
  mkSourceCode text
    [ mkToken AST_TOKEN_TYPES.Identifier "type" (0, 4);
      mkToken AST_TOKEN_TYPES.Identifier "T" (5, 6);
      mkToken AST_TOKEN_TYPES.Punctuator "=" (7, 8);
      mkToken AST_TOKEN_TYPES.Punctuator "{" (9, 10);
      mkToken AST_TOKEN_TYPES.Punctuator "(" (11, 12);
      mkToken AST_TOKEN_TYPES.Punctuator ")" (12, 13);
      mkToken AST_TOKEN_TYPES.Punctuator ":" (13, 14);
      mkToken AST_TOKEN_TYPES.Keyword "this" (15, 19);
      mkToken AST_TOKEN_TYPES.Punctuator "}" (20, 21) ].
Definition member : TypeElement :=
  callSignature (11, 19) []
    (annotation (13, 19) (leaf AST_NODE_TYPES.TSThisType (15, 19))).
Definition node : TSTypeLiteral :=
  mkTypeLiteral (9, 21) [member]
    (Some AST_NODE_TYPES.TSTypeAliasDeclaration).
End LiteralThis.

(** [type T = { (x: this): void }] *)
Module LiteralParamThis.
Definition text : string := "type T = { (x: this): void }".
Definition sourceCode : SourceCode :=
  mkSourceCode text
    [ mkToken AST_TOKEN_TYPES.Identifier "type" (0, 4);
      mkToken AST_TOKEN_TYPES.Identifier "T" (5, 6);
      mkToken AST_TOKEN_TYPES.Punctuator "=" (7, 8);
      mkToken AST_TOKEN_TYPES.Punctuator "{" (9, 10);
      mkToken AST_TOKEN_TYPES.Punctuator "(" (11, 12);
      mkToken AST_TOKEN_TYPES.Identifier "x" (12, 13);
      mkToken AST_TOKEN_TYPES.Punctuator ":" (13, 14);
      mkToken AST_TOKEN_TYPES.Keyword "this" (15, 19);
      mkToken AST_TOKEN_TYPES.Punctuator ")" (19, 20);
      mkToken AST_TOKEN_TYPES.Punctuator ":" (20, 21);
      mkToken AST_TOKEN_TYPES.Keyword "void" (22, 26);
      mkToken AST_TOKEN_TYPES.Punctuator "}" (27, 28) ].
Definition member : TypeElement :=
  callSignature (11, 26)
    [ identifierParam
        (annotation (13, 19) (leaf AST_NODE_TYPES.TSThisType (15, 19))) ]
    (annotation (20, 26) (leaf AST_NODE_TYPES.TSVoidKeyword (22, 26))).
Definition node : TSTypeLiteral :=
  mkTypeLiteral (9, 28) [member]
    (Some AST_NODE_TYPES.TSTypeAliasDeclaration).
End LiteralParamThis.

(** [interface Foo extends ns.Function { (): void }] *)
Module FooExtendsQualified.
Definition text : string := "interface Foo extends ns.Function { (): void }".
Definition sourceCode : SourceCode :=
  mkSourceCode text
    [ mkToken AST_TOKEN_TYPES.Keyword "interface" (0, 9);
      mkToken AST_TOKEN_TYPES.Identifier "Foo" (10, 13);
      mkToken AST_TOKEN_TYPES.Keyword "extends" (14, 21);
      mkToken AST_TOKEN_TYPES.Identifier "ns" (22, 24);
      mkToken AST_TOKEN_TYPES.Punctuator "." (24, 25);
      mkToken AST_TOKEN_TYPES.Identifier "Function" (25, 33);
      mkToken AST_TOKEN_TYPES.Punctuator "{" (34, 35);
      mkToken AST_TOKEN_TYPES.Punctuator "(" (36, 37);
      mkToken AST_TOKEN_TYPES.Punctuator ")" (37, 38);
      mkToken AST_TOKEN_TYPES.Punctuator ":" (38, 39);
      mkToken AST_TOKEN_TYPES.Keyword "void" (40, 44);
      mkToken AST_TOKEN_TYPES.Punctuator "}" (45, 46) ].
Definition member : TypeElement :=
  callSignature (36, 44) []
    (annotation (38, 44) (leaf AST_NODE_TYPES.TSVoidKeyword (40, 44))).
Definition heritage : TSInterfaceHeritage :=
  mkHeritage (mkExpression AST_NODE_TYPES.MemberExpression None).
Definition node : TSInterfaceDeclaration :=
  mkInterface (0, 46) (mkIdentifier "Foo" (10, 13)) None (Some [heritage])
    [member] (Some AST_NODE_TYPES.Program).
End FooExtendsQualified.

(** [type F = { (): void; }] *)
Module LiteralSemicolon.
Definition text : string := "type F = { (): void; }".
Definition sourceCode : SourceCode :=
  mkSourceCode text
    [ mkToken AST_TOKEN_TYPES.Identifier "type" (0, 4);
      mkToken AST_TOKEN_TYPES.Identifier "F" (5, 6);
      mkToken AST_TOKEN_TYPES.Punctuator "=" (7, 8);
      mkToken AST_TOKEN_TYPES.Punctuator "{" (9, 10);
      mkToken AST_TOKEN_TYPES.Punctuator "(" (11, 12);
      mkToken AST_TOKEN_TYPES.Punctuator ")" (12, 13);
      mkToken AST_TOKEN_TYPES.Punctuator ":" (13, 14);
      mkToken AST_TOKEN_TYPES.Keyword "void" (15, 19);
      mkToken AST_TOKEN_TYPES.Punctuator ";" (19, 20);
      mkToken AST_TOKEN_TYPES.Punctuator "}" (21, 22) ].
Definition member : TypeElement :=
  callSignature (11, 20) []
    (annotation (13, 19) (leaf AST_NODE_TYPES.TSVoidKeyword (15, 19))).
Definition node : TSTypeLiteral :=
  mkTypeLiteral (9, 22) [member] (Some AST_NODE_TYPES.TSTypeAliasDeclaration).
End LiteralSemicolon.

(** [interface A { (): void } interface B { (): void }], the second
    declaration *)
Module SecondInterface.
Definition text : string :=
  "interface A { (): void } interface B { (): void }".
Definition sourceCode : SourceCode :=
  mkSourceCode text
    [ mkToken AST_TOKEN_TYPES.Keyword "interface" (0, 9);
      mkToken AST_TOKEN_TYPES.Identifier "A" (10, 11);
      mkToken AST_TOKEN_TYPES.Punctuator "{" (12, 13);
      mkToken AST_TOKEN_TYPES.Punctuator "(" (14, 15);
      mkToken AST_TOKEN_TYPES.Punctuator ")" (15, 16);
      mkToken AST_TOKEN_TYPES.Punctuator ":" (16, 17);
      mkToken AST_TOKEN_TYPES.Keyword "void" (18, 22);
      mkToken AST_TOKEN_TYPES.Punctuator "}" (23, 24);
      mkToken AST_TOKEN_TYPES.Keyword "interface" (25, 34);
      mkToken AST_TOKEN_TYPES.Identifier "B" (35, 36);
      mkToken AST_TOKEN_TYPES.Punctuator "{" (37, 38);
      mkToken AST_TOKEN_TYPES.Punctuator "(" (39, 40);
      mkToken AST_TOKEN_TYPES.Punctuator ")" (40, 41);
      mkToken AST_TOKEN_TYPES.Punctuator ":" (41, 42);
      mkToken AST_TOKEN_TYPES.Keyword "void" (43, 47);
      mkToken AST_TOKEN_TYPES.Punctuator "}" (48, 49) ].
Definition member : TypeElement :=
  callSignature (39, 47) []
    (annotation (41, 47) (leaf AST_NODE_TYPES.TSVoidKeyword (43, 47))).
Definition node : TSInterfaceDeclaration :=
  mkInterface (25, 49) (mkIdentifier "B" (35, 36)) None None [member]
    (Some AST_NODE_TYPES.Program).
End SecondInterface.

End Examples.

(** ** Facts about the string operations *)

Section StringFacts.

Local Open Scope nat_scope.

Lemma append_assoc (a b c : string) : ((a ++ b) ++ c = a ++ (b ++ c))%string.
Proof.
  induction a as [|x a IH]; simpl; [reflexivity | now rewrite IH].
Qed.

Lemma append_empty_r (a : string) : (a ++ EmptyString = a)%string.
Proof.
  induction a as [|x a IH]; simpl; [reflexivity | now rewrite IH].
Qed.

Lemma length_append (a b : string) :
  String.length (a ++ b) = String.length a + String.length b.
Proof.
  induction a as [|x a IH]; simpl; [reflexivity | now rewrite IH].
Qed.

(** The character at the end of [a] in [a ++ String c b]. *)
Lemma substring_at_append (a b : string) (c : ascii) :
  substring (String.length a) 1 (a ++ String c b) = String c EmptyString.
Proof.
  induction a as [|x a IH]; simpl.
  - now destruct b.
  - exact IH.
Qed.

Lemma prefix_split (pat s : string) :
  prefix pat s = true -> s = (pat ++ JS.drop (String.length pat) s)%string.
Proof.
  revert s; induction pat as [|p pat IH]; intros s H; simpl.
  - reflexivity.
  - destruct s as [|c s]; simpl in H; [discriminate|].
    destruct (ascii_dec p c) as [->|]; [|discriminate].
    simpl. f_equal. now apply IH.
Qed.

(** [splitFirst] cuts the string around an occurrence of the pattern. *)
Lemma splitFirst_sound (pat s before after : string) :
  JS.splitFirst pat s = Some (before, after) ->
  s = (before ++ pat ++ after)%string.
Proof.
  revert before after; induction s as [|c s IH]; intros before after H.
  - cbn [JS.splitFirst] in H.
    destruct (prefix pat EmptyString) eqn:E; [|discriminate].
    injection H as <- <-. simpl. now apply prefix_split in E.
  - cbn [JS.splitFirst] in H.
    destruct (prefix pat (String c s)) eqn:E.
    + injection H as <- <-. simpl. now apply prefix_split in E.
    + destruct (JS.splitFirst pat s) as [[b a]|] eqn:E'; [|discriminate].
      injection H as <- <-. simpl. f_equal. now apply IH.
Qed.

(** ... and no occurrence starts before the cut. *)
Lemma splitFirst_first (pat s before after : string) :
  JS.splitFirst pat s = Some (before, after) ->
  forall k, k < String.length before -> prefix pat (JS.drop k s) = false.
Proof.
  revert before after; induction s as [|c s IH]; intros before after H k Hk.
  - cbn [JS.splitFirst] in H.
    destruct (prefix pat EmptyString); [|discriminate].
    injection H as <- <-. simpl in Hk. lia.
  - cbn [JS.splitFirst] in H.
    destruct (prefix pat (String c s)) eqn:E.
    + injection H as <- <-. simpl in Hk. lia.
    + destruct (JS.splitFirst pat s) as [[b a]|] eqn:E'; [|discriminate].
      injection H as <- <-. destruct k as [|k]; simpl.
      * exact E.
      * apply (IH b a eq_refl). simpl in Hk. lia.
Qed.

(** A replacement text without a dollar sign is inserted as it is. *)
Lemma getSubstitution_dollar_free (matched before after r : string) :
  dollar_free r = true -> JS.getSubstitution matched before after r = r.
Proof.
  induction r as [|c r IH]; simpl; intro H; [reflexivity|].
  apply andb_true_iff in H as [Hc Hr].
  apply negb_true_iff in Hc. rewrite Hc. f_equal. now apply IH.
Qed.

Lemma replace_dollar_free (s pat r before after : string) :
  dollar_free r = true ->
  JS.splitFirst pat s = Some (before, after) ->
  JS.replace s pat r = (before ++ r ++ after)%string.
Proof.
  intros Hr Hs. unfold JS.replace. rewrite Hs.
  now rewrite getSubstitution_dollar_free.
Qed.

Lemma replace_absent (s pat r : string) :
  JS.splitFirst pat s = None -> JS.replace s pat r = s.
Proof.
  intro H. unfold JS.replace. now rewrite H.
Qed.

(** A text closed by a parenthesis does not end with a semicolon. *)
Lemma endsWith_parenthesized (s : string) :
  JS.endsWith ("(" ++ s ++ ")") ";" = false.
Proof.
  unfold JS.endsWith.
  change ("(" ++ s ++ ")")%string with (String "(" (s ++ ")")).
  replace (String "(" (s ++ ")")) with ((String "(" s) ++ ")")%string
    by reflexivity.
  rewrite length_append. simpl String.length.
  replace (S (String.length s) + 1 - 1) with (String.length (String "(" s))
    by (simpl; lia).
  change ")"%string with (String ")" EmptyString).
  rewrite substring_at_append.
  apply andb_false_r.
Qed.

Lemma parenthesized_differs (s : string) : ("(" ++ s ++ ")")%string <> s.
Proof.
  intro H. apply (f_equal String.length) in H.
  simpl in H. rewrite length_append in H. simpl in H. lia.
Qed.

End StringFacts.

(** ** Facts about the rule's functions *)

Lemma node_type_eqb_eq (a b : AST_NODE_TYPES.t) :
  AST_NODE_TYPES.eqb a b = true <-> a = b.
Proof.
  split.
  - destruct a, b; simpl; intro H; try reflexivity; discriminate H.
  - intros ->. destruct b; reflexivity.
Qed.

Lemma node_type_eqb_neq (a b : AST_NODE_TYPES.t) :
  AST_NODE_TYPES.eqb a b = false <-> a <> b.
Proof.
  split.
  - intros H ->. destruct b; discriminate H.
  - intro H. destruct (AST_NODE_TYPES.eqb a b) eqn:E; [|reflexivity].
    apply node_type_eqb_eq in E. contradiction.
Qed.

(** [getReturnType] returns on every tree whose children are present. *)
Lemma getReturnType_total :
  forall n, children_present n = true -> exists o, getReturnType n = Ok o.
Proof.
  fix IH 1. intros [t r ta rt] H.
  cbn [children_present type typeAnnotation returnType] in H.
  apply andb_true_iff in H as [H Hrt].
  apply andb_true_iff in H as [H Hta].
  apply andb_true_iff in H as [Ha Hf].
  cbn [getReturnType type typeAnnotation returnType range].
  destruct (has possibleReturnThisTypeHolders t); cbn [negb]; [|eauto].
  destruct (AST_NODE_TYPES.eqb t AST_NODE_TYPES.TSThisType); [eauto|].
  destruct (AST_NODE_TYPES.eqb t AST_NODE_TYPES.TSTypeAnnotation).
  - destruct ta as [a|]; [|discriminate Ha].
    destruct (AST_NODE_TYPES.eqb (type a) AST_NODE_TYPES.TSThisType); eauto.
  - destruct (AST_NODE_TYPES.eqb t AST_NODE_TYPES.TSFunctionType); [|eauto].
    destruct rt as [x|]; [|discriminate Hf].
    apply IH. exact Hrt.
Qed.

(** The visit of the parameters when the enclosing node has the name [n]. *)
Lemma params_visit_named (parent : EnclosingNode) (n : string)
  (params : list Param) :
  node_id_name parent = Ok n ->
  forall lhs,
    fold_left
      (fun acc param =>
         lhs <- acc ;;
         if param_is_this param
         then parent_id_name <- node_id_name parent ;;
              Ok (JS.replace lhs "this" parent_id_name)
         else Ok lhs)
      params (Ok lhs)
    = Ok (lhsRewritten params n lhs).
Proof.
  intro Hn.
  match goal with
  | |- forall lhs, fold_left ?f _ _ = _ => remember f as visit eqn:Hvisit
  end.
  induction params as [|p params IH]; intro lhs.
  - reflexivity.
  - cbn [fold_left].
    replace (visit (Ok lhs) p)
      with (Ok (if param_is_this p then JS.replace lhs "this" n else lhs)).
    + rewrite IH. unfold lhsRewritten. reflexivity.
    + subst visit. cbn [bind]. rewrite Hn.
      now destruct (param_is_this p).
Qed.

(** Once the visit has thrown it stays thrown. *)
Lemma params_visit_thrown (parent : EnclosingNode) (params : list Param) :
  fold_left
    (fun acc param =>
       lhs <- acc ;;
       if param_is_this param
       then parent_id_name <- node_id_name parent ;;
            Ok (JS.replace lhs "this" parent_id_name)
       else Ok lhs)
    params TypeError
  = TypeError.
Proof.
  induction params as [|p params IH]; [reflexivity | exact IH].
Qed.

(** The visit of the parameters of a signature in a type literal. *)
Lemma params_visit_unnamed (parent : EnclosingNode) (params : list Param) :
  node_id_name parent = TypeError ->
  forall lhs,
    fold_left
      (fun acc param =>
         lhs <- acc ;;
         if param_is_this param
         then parent_id_name <- node_id_name parent ;;
              Ok (JS.replace lhs "this" parent_id_name)
         else Ok lhs)
      params (Ok lhs)
    = if existsb param_is_this params then TypeError else Ok lhs.
Proof.
  intro Hn. pose proof (params_visit_thrown parent) as Hthrown.
  revert Hthrown.
  match goal with
  | |- _ -> forall lhs, fold_left ?f _ _ = _ => remember f as visit eqn:Hvisit
  end.
  intro Hthrown.
  induction params as [|p params IH]; intro lhs.
  - reflexivity.
  - cbn [fold_left existsb].
    replace (visit (Ok lhs) p)
      with (if param_is_this p then @TypeError string else Ok lhs).
    + destruct (param_is_this p); cbn [orb]; [apply Hthrown | apply IH].
    + subst visit. cbn [bind]. rewrite Hn.
      now destruct (param_is_this p).
Qed.

(** [renderSuggestion] for an enclosing node that has a name. *)
Lemma renderSuggestion_named (sourceCode : SourceCode) (call : TypeElement)
  (parent : EnclosingNode) (rt t : Node) (resolved : option Range)
  (n : string) :
  member_returnType call = Some rt ->
  typeAnnotation rt = Some t ->
  getReturnType t = Ok resolved ->
  node_id_name parent = Ok n ->
  renderSuggestion sourceCode call parent
  = Ok (declarationText sourceCode parent
          (wrapped (node_parent parent)
             (lhsRewritten (member_params call) n
                           (lhsText sourceCode call rt)
              ++ " =>"
              ++ rhsRewritten sourceCode resolved n
                              (rhsText sourceCode call rt)))).
Proof.
  intros Hrt Ht Hres Hn. unfold renderSuggestion.
  rewrite Hrt. cbn [bind]. rewrite Ht. cbn [getReturnType_of].
  rewrite Hres. cbn [bind].
  fold (signatureText sourceCode call). fold (colonPos call rt).
  fold (lhsText sourceCode call rt). fold (rhsText sourceCode call rt).
  assert (Hr :
            match resolved with
            | Some r =>
                if String.eqb
                     (JS.slice (getText sourceCode) (fst r) (Some (snd r)))
                     "this"
                then parent_id_name <- node_id_name parent ;;
                     Ok (JS.replace (rhsText sourceCode call rt) "this"
                                    parent_id_name)
                else Ok (rhsText sourceCode call rt)
            | None => Ok (rhsText sourceCode call rt)
            end
            = Ok (rhsRewritten sourceCode resolved n
                               (rhsText sourceCode call rt))).
  { unfold rhsRewritten, reads_this. destruct resolved as [r|]; [|reflexivity].
    rewrite Hn. cbn [bind].
    now destruct (String.eqb _ "this"). }
  rewrite Hr. cbn [bind].
  assert (Hl :
            (if (0 <? List.length (member_params call))%nat then
               fold_left
                 (fun acc param =>
                    lhs <- acc ;;
                    if param_is_this param
                    then parent_id_name <- node_id_name parent ;;
                         Ok (JS.replace lhs "this" parent_id_name)
                    else Ok lhs)
                 (member_params call) (Ok (lhsText sourceCode call rt))
             else Ok (lhsText sourceCode call rt))
            = Ok (lhsRewritten (member_params call) n
                               (lhsText sourceCode call rt))).
  { destruct (member_params call) as [|p ps] eqn:E; [reflexivity|].
    cbn [List.length Nat.ltb Nat.leb]. now apply params_visit_named. }
  rewrite Hl. cbn [bind].
  unfold wrapped, parenthesize, declarationText, aliasText, literalText.
  destruct parent as [d|l]; [|reflexivity].
  now destruct (typeParameters d).
Qed.

(** [renderSuggestion] for a type literal, which has no name to read. *)
Lemma renderSuggestion_unnamed (sourceCode : SourceCode) (call : TypeElement)
  (l : TSTypeLiteral) (rt t : Node) (resolved : option Range) :
  member_returnType call = Some rt ->
  typeAnnotation rt = Some t ->
  getReturnType t = Ok resolved ->
  renderSuggestion sourceCode call (TypeLiteral l)
  = if match resolved with
       | Some r => reads_this sourceCode r
       | None => false
       end
       || existsb param_is_this (member_params call)
    then TypeError
    else Ok (literalText
               (wrapped (literal_parent l)
                  (lhsText sourceCode call rt ++ " =>"
                   ++ rhsText sourceCode call rt))).
Proof.
  intros Hrt Ht Hres. unfold renderSuggestion.
  rewrite Hrt. cbn [bind]. rewrite Ht. cbn [getReturnType_of].
  rewrite Hres. cbn [bind].
  fold (signatureText sourceCode call). fold (colonPos call rt).
  fold (lhsText sourceCode call rt). fold (rhsText sourceCode call rt).
  assert (Hn : node_id_name (TypeLiteral l) = TypeError) by reflexivity.
  destruct (match resolved with
            | Some r => reads_this sourceCode r
            | None => false
            end) eqn:Hthis.
  - destruct resolved as [r|]; [|discriminate Hthis].
    unfold reads_this in Hthis. rewrite Hthis. reflexivity.
  - assert (Hr :
              match resolved with
              | Some r =>
                  if String.eqb
                       (JS.slice (getText sourceCode) (fst r) (Some (snd r)))
                       "this"
                  then parent_id_name <- node_id_name (TypeLiteral l) ;;
                       Ok (JS.replace (rhsText sourceCode call rt) "this"
                                      parent_id_name)
                  else Ok (rhsText sourceCode call rt)
              | None => Ok (rhsText sourceCode call rt)
              end
              = Ok (rhsText sourceCode call rt)).
    { destruct resolved as [r|]; [|reflexivity].
      unfold reads_this in Hthis. now rewrite Hthis. }
    rewrite Hr. cbn [bind orb].
    destruct (member_params call) as [|p ps] eqn:E; [reflexivity|].
    cbn [List.length Nat.ltb Nat.leb].
    rewrite (params_visit_unnamed (TypeLiteral l) (p :: ps) Hn).
    destruct (existsb param_is_this (p :: ps)); reflexivity.
Qed.

Lemma is_signature_with_returnType_iff (member : TypeElement) :
  is_signature_with_returnType member = true
  <-> callable_with_returnType member.
Proof.
  unfold is_signature_with_returnType, callable_with_returnType.
  rewrite andb_true_iff, orb_true_iff, !node_type_eqb_eq.
  destruct (member_returnType member); intuition congruence.
Qed.

Lemma hasOneSupertype_false_iff (d : TSInterfaceDeclaration) :
  hasOneSupertype d = false <-> no_extends d \/ extends_only d "Function".
Proof.
  unfold hasOneSupertype, no_extends, extends_only.
  destruct (extends d) as [[|h [|h' ext]]|]; cbn.
  - intuition.
  - rewrite orb_false_iff, negb_false_iff, node_type_eqb_eq.
    unfold name_is_not. split.
    + intros [Ht Hn]. right. exists h. repeat split; [exact Ht|].
      destruct (expr_name (expression h)) as [x|]; [|discriminate Hn].
      apply negb_false_iff, String.eqb_eq in Hn. now subst.
    + intros [[H|H]|[h0 [H [Ht Hn]]]]; try discriminate H.
      injection H as <-. rewrite Hn. now rewrite String.eqb_refl.
  - split; [discriminate|].
    intros [[H|H]|[h0 [H _]]]; discriminate H.
  - intuition.
Qed.

Lemma existsb_filter_head {A : Type} (f : A -> bool) (l : list A) :
  existsb f l = true -> exists x rest, filter f l = x :: rest.
Proof.
  induction l as [|a l IH]; cbn; [discriminate|].
  destruct (f a); cbn; eauto.
Qed.

(** [checkMember] on an interface declaration that passes its tests. *)
Lemma checkMember_interface (sourceCode : SourceCode) (member : TypeElement)
  (d : TSInterfaceDeclaration) (suggestion : string) (token : Token)
  (rest : list Token) :
  is_signature_with_returnType member = true ->
  renderSuggestion sourceCode member (Interface d) = Ok suggestion ->
  filter is_interface_keyword (getTokens sourceCode (interface_range d))
  = token :: rest ->
  checkMember sourceCode member (Interface d)
  = Ok (Some (mkReport member "functionTypeOverCallableType" "Interface"
                suggestion
                (fst (token_range token), snd (interface_range d))
                suggestion)).
Proof.
  intros Hq Hs Ht. unfold checkMember. rewrite Hq, Hs.
  cbn [bind node_type AST_NODE_TYPES.eqb node_range]. now rewrite Ht.
Qed.

(** [checkMember] on a type literal that passes its tests. *)
Lemma checkMember_literal (sourceCode : SourceCode) (member : TypeElement)
  (l : TSTypeLiteral) (suggestion : string) :
  is_signature_with_returnType member = true ->
  renderSuggestion sourceCode member (TypeLiteral l) = Ok suggestion ->
  checkMember sourceCode member (TypeLiteral l)
  = Ok (Some (mkReport member "functionTypeOverCallableType" "Type literal"
                suggestion
                (fst (literal_range l), snd (literal_range l))
                suggestion)).
Proof.
  intros Hq Hs. unfold checkMember. now rewrite Hq, Hs.
Qed.

(** A report comes from a member that passed the tests of [checkMember]. *)
Lemma checkMember_report_inv (sourceCode : SourceCode) (member : TypeElement)
  (node : EnclosingNode) (r : ReportDescriptor) :
  checkMember sourceCode member node = Ok (Some r) ->
  is_signature_with_returnType member = true
  /\ renderSuggestion sourceCode member node = Ok (data_sigSuggestion r)
  /\ report_node r = member
  /\ fix_text r = data_sigSuggestion r
  /\ snd (fix_range r) = snd (node_range node).
Proof.
  unfold checkMember.
  destruct (is_signature_with_returnType member); [|discriminate].
  destruct (renderSuggestion sourceCode member node) as [s|]; [|discriminate].
  cbn [bind].
  match goal with
  | |- bind ?x _ = _ -> _ => destruct x as [fixStart|]; [|discriminate]
  end.
  cbn [bind]. intro H. injection H as <-. cbn. auto.
Qed.

(** A member with a well-formed return type is rendered for an interface
    declaration. *)
Lemma renderSuggestion_interface_total (sourceCode : SourceCode)
  (member : TypeElement) (d : TSInterfaceDeclaration) :
  is_signature_with_returnType member = true ->
  returnType_well_formed member = true ->
  exists s, renderSuggestion sourceCode member (Interface d) = Ok s.
Proof.
  intros Hq Hwf. unfold is_signature_with_returnType in Hq.
  unfold returnType_well_formed in Hwf.
  destruct (member_returnType member) as [rt|] eqn:Hrt;
    [|now rewrite andb_false_r in Hq].
  apply andb_true_iff in Hwf as [Hty Hch].
  destruct rt as [ty r ta x]. cbn [type] in Hty.
  cbn [children_present type typeAnnotation returnType] in Hch.
  rewrite Hty in Hch.
  destruct ta as [t|]; [|discriminate Hch].
  cbn [andb] in Hch.
  apply andb_true_iff in Hch as [Hch _].
  apply andb_true_iff in Hch as [_ Hch].
  destruct (getReturnType_total t Hch) as [resolved Hres].
  eexists.
  eapply (renderSuggestion_named sourceCode member (Interface d));
    [exact Hrt | reflexivity | exact Hres | reflexivity].
Qed.

(** [renderSuggestion] is the assembled arrow, then the test on the parent's
    type, then the text for the kind of enclosing node. *)
Lemma renderSuggestion_stages (sourceCode : SourceCode) (call : TypeElement)
  (parent : EnclosingNode) :
  renderSuggestion sourceCode call parent
  = (base <- arrowFunctionText sourceCode call parent ;;
     Ok (declarationText sourceCode parent
           (wrapped (node_parent parent) base))).
Proof.
  unfold renderSuggestion, arrowFunctionText.
  destruct (member_returnType call) as [rt|]; [|reflexivity]. cbn [bind].
  destruct (getReturnType_of (typeAnnotation rt)) as [resolved|];
    [|reflexivity].
  cbn [bind].
  match goal with
  | |- bind ?x _ = _ => destruct x as [rhs|]; [|reflexivity]
  end.
  cbn [bind].
  match goal with
  | |- bind ?x _ = _ => destruct x as [lhs|]; [|reflexivity]
  end.
  cbn [bind].
  unfold declarationText, aliasText, literalText, wrapped, parenthesize.
  destruct parent as [d|l]; [|reflexivity].
  now destruct (typeParameters d).
Qed.

Lemma arrowFunctionText_with_parent (sourceCode : SourceCode)
  (call : TypeElement) (node : EnclosingNode) (p : option AST_NODE_TYPES.t) :
  arrowFunctionText sourceCode call (with_parent node p)
  = arrowFunctionText sourceCode call node.
Proof.
  destruct node; reflexivity.
Qed.

Lemma declarationText_with_parent (sourceCode : SourceCode)
  (node : EnclosingNode) (p : option AST_NODE_TYPES.t) (s : string) :
  declarationText sourceCode (with_parent node p) s
  = declarationText sourceCode node s.
Proof.
  destruct node; reflexivity.
Qed.

Lemma shouldWrapSuggestion_iff (p : option AST_NODE_TYPES.t) :
  shouldWrapSuggestion p = true <-> union_intersection_or_array p.
Proof.
  unfold union_intersection_or_array.
  destruct p as [[]|]; cbn; split; intro H;
    try discriminate H; try reflexivity; try tauto;
    destruct H as [H|[H|H]]; discriminate H.
Qed.

(** The positions the specification lists are resolved ... *)
Lemma getReturnType_written (n : Node) (r : Range) :
  this_written n r -> getReturnType n = Ok (Some r).
Proof.
  intros [m Hm | m u Hm Hu Hut]; destruct m as [t rg ta rt];
    cbn [type typeAnnotation] in *; subst t; cbn.
  - reflexivity.
  - subst ta. apply node_type_eqb_eq in Hut. now rewrite Hut.
Qed.

Lemma getReturnType_resolved (n : Node) (r : Range) :
  this_resolved n r -> getReturnType n = Ok (Some r).
Proof.
  intros [m r' H | m a r' Hm Ha H].
  - now apply getReturnType_written.
  - destruct m as [t rg ta rt]; cbn [type returnType] in *; subst t rt.
    cbn. now apply getReturnType_written.
Qed.

(** ... and a function type nested in a function type is not. *)
Lemma getReturnType_nested_deeper (n : Node) :
  nested_deeper n -> getReturnType n = Ok None.
Proof.
  intros [Hn [a [u [Ha [Hat [Hau Hu]]]]]].
  destruct n as [t rg ta rt]; cbn [type returnType] in *; subst t rt.
  destruct a as [t' rg' ta' rt']; cbn [type typeAnnotation] in *; subst t' ta'.
  cbn. now rewrite Hu.
Qed.



(** ** The matcher on interface declarations *)

(** An interface declaration that passes [hasOneSupertype] is handed to
    [checkMember] exactly when its body has one member. *)
Lemma visitInterfaceDeclaration_unextended (sourceCode : SourceCode)
  (d : TSInterfaceDeclaration) :
  hasOneSupertype d = false ->
  visitInterfaceDeclaration sourceCode d
  = match body d with
    | [member] => checkMember sourceCode member (Interface d)
    | _ => Ok None
    end.
Proof.
  intro H. unfold visitInterfaceDeclaration. rewrite H.
  now destruct (body d) as [|m [|m' ms]].
Qed.

(** C1, as the code has it: a named interface with no extends clause, or
    with the single extends clause [Function], is reported if and only if
    its body has exactly one member and that member is a call or construct
    signature with a written return type; otherwise the visit is silent.
    The tree is as the parser builds it: the declaration's tokens include
    the [interface] keyword and return types are type annotations. *)
Theorem unextended_interface_reported_iff (sourceCode : SourceCode)
  (d : TSInterfaceDeclaration) :
  no_extends d \/ extends_only d "Function" ->
  conforming_interface sourceCode d = true ->
  ((exists r, visitInterfaceDeclaration sourceCode d = Ok (Some r))
   <-> (exists member, body d = [member] /\ callable_with_returnType member))
  /\ ((~ exists member, body d = [member] /\ callable_with_returnType member)
      -> visitInterfaceDeclaration sourceCode d = Ok None).
Proof.
  intros Hext Hconf. apply hasOneSupertype_false_iff in Hext.
  rewrite (visitInterfaceDeclaration_unextended _ _ Hext).
  unfold conforming_interface in Hconf.
  apply andb_true_iff in Hconf as [Hkw Hwf].
  destruct (body d) as [|m [|m' ms]] eqn:Hbody.
  - split; [split|]; [intros [r H]; discriminate H | | reflexivity].
    intros [m [H _]]; discriminate H.
  - cbn [forallb] in Hwf. rewrite andb_true_r in Hwf.
    destruct (is_signature_with_returnType m) eqn:Hq.
    + destruct (renderSuggestion_interface_total sourceCode m d Hq Hwf)
        as [s Hs].
      destruct (existsb_filter_head _ _ Hkw) as [token [rest Htok]].
      rewrite (checkMember_interface _ _ _ _ _ _ Hq Hs Htok).
      apply is_signature_with_returnType_iff in Hq.
      split; [split|]; eauto.
      intro H. exfalso. apply H. eauto.
    + assert (Hn : ~ callable_with_returnType m).
      { intro H. apply is_signature_with_returnType_iff in H. congruence. }
      unfold checkMember. rewrite Hq.
      split; [split|]; [intros [r H]; discriminate H | | reflexivity].
      intros [m0 [H Hc]]. injection H as <-. contradiction.
  - split; [split|]; [intros [r H]; discriminate H | | reflexivity].
    intros [m0 [H _]]; discriminate H.
Qed.

Lemma unextended_interface_reported_iff_witness :
  (no_extends Examples.FooVoid.node
   \/ extends_only Examples.FooVoid.node "Function")
  /\ conforming_interface Examples.FooVoid.sourceCode Examples.FooVoid.node
     = true
  /\ ((exists r,
          visitInterfaceDeclaration Examples.FooVoid.sourceCode
            Examples.FooVoid.node = Ok (Some r))
      <-> (exists member,
              body Examples.FooVoid.node = [member]
              /\ callable_with_returnType member)).
Proof.
  assert (H : no_extends Examples.FooVoid.node
              \/ extends_only Examples.FooVoid.node "Function")
    by (left; left; reflexivity).
  split; [exact H|]. split; [reflexivity|].
  exact (proj1 (unextended_interface_reported_iff
                  Examples.FooVoid.sourceCode Examples.FooVoid.node
                  H eq_refl)).
Defined.

(** C1, counterexample: [interface Foo { (): void }] has no extends clause
    and [interface Foo extends Function { (): void }] has the single extends
    clause [Function]; both are reported. *)
Lemma unextended_interface_is_reported :
  no_extends Examples.FooVoid.node
  /\ visitInterfaceDeclaration Examples.FooVoid.sourceCode
       Examples.FooVoid.node
     = Ok (Some (mkReport Examples.FooVoid.member
                   "functionTypeOverCallableType" "Interface"
                   "type Foo = () => void" (0, 26) "type Foo = () => void"))
  /\ extends_only Examples.FooExtendsFunction.node "Function"
  /\ visitInterfaceDeclaration Examples.FooExtendsFunction.sourceCode
       Examples.FooExtendsFunction.node
     = Ok (Some (mkReport Examples.FooExtendsFunction.member
                   "functionTypeOverCallableType" "Interface"
                   "type Foo = () => void" (0, 43) "type Foo = () => void")).
Proof.
  split; [left; reflexivity|]. split; [reflexivity|].
  split; [|reflexivity].
  exists (Examples.extendsIdentifier "Function"). now repeat split.
Qed.

(** C2, as the code has it: a named interface with one extends clause that
    names an identifier other than [Function], or with more than one extends
    clause, is never reported, whatever its members. *)
Theorem extended_interface_never_reported (sourceCode : SourceCode)
  (d : TSInterfaceDeclaration) :
  (exists n, extends_only d n /\ n <> "Function") \/ extends_several d ->
  visitInterfaceDeclaration sourceCode d = Ok None.
Proof.
  intro H.
  assert (Hs : hasOneSupertype d = true).
  { unfold hasOneSupertype.
    destruct H as [[n [[h [He [Ht Hn]]] Hne]] | [ext [He Hlen]]];
      rewrite He.
    - cbn. rewrite Ht, Hn. cbn.
      apply negb_true_iff, String.eqb_neq. exact Hne.
    - destruct ext as [|h [|h' ext]]; cbn in Hlen; try lia. reflexivity. }
  unfold visitInterfaceDeclaration. now rewrite Hs.
Qed.

Lemma extended_interface_never_reported_witness :
  ((exists n, extends_only Examples.FooExtendsBar.node n /\ n <> "Function")
   \/ extends_several Examples.FooExtendsBar.node)
  /\ visitInterfaceDeclaration Examples.FooExtendsBar.sourceCode
       Examples.FooExtendsBar.node = Ok None.
Proof.
  assert (H : (exists n, extends_only Examples.FooExtendsBar.node n
                         /\ n <> "Function")
              \/ extends_several Examples.FooExtendsBar.node).
  { left. exists "Bar". split; [|discriminate].
    exists (Examples.extendsIdentifier "Bar"). now repeat split. }
  split; [exact H|].
  exact (extended_interface_never_reported
           Examples.FooExtendsBar.sourceCode Examples.FooExtendsBar.node H).
Defined.

(** C2, counterexample: [interface Foo extends Bar { (): void }] has one
    extends clause naming [Bar] and a body of exactly one call signature
    with a return type, and it is not reported. *)
Lemma extended_interface_is_silent :
  extends_only Examples.FooExtendsBar.node "Bar"
  /\ body Examples.FooExtendsBar.node = [Examples.FooExtendsBar.member]
  /\ callable_with_returnType Examples.FooExtendsBar.member
  /\ visitInterfaceDeclaration Examples.FooExtendsBar.sourceCode
       Examples.FooExtendsBar.node = Ok None.
Proof.
  split; [exists (Examples.extendsIdentifier "Bar"); now repeat split|].
  split; [reflexivity|]. split; [|reflexivity].
  split; [left; reflexivity | discriminate].
Qed.

(** ** The matcher on type literals *)

(** X10.  A type literal is reported only for a sole member that is a call or
    construct signature with a written return type. *)
Lemma visitTypeLiteral_report_inv (sourceCode : SourceCode)
  (l : TSTypeLiteral) (r : ReportDescriptor) :
  visitTypeLiteral sourceCode l = Ok (Some r) ->
  exists member,
    members l = [member] /\ callable_with_returnType member
    /\ report_node r = member.
Proof.
  unfold visitTypeLiteral.
  destruct (members l) as [|m [|m' ms]]; cbn; try discriminate.
  intro H. apply checkMember_report_inv in H as [Hq [_ [Hn _]]].
  exists m. split; [reflexivity|]. split; [|exact Hn].
  now apply is_signature_with_returnType_iff.
Qed.

(** A sole member of another kind, or without a written return type, is
    passed over in silence. *)
Lemma visitTypeLiteral_other_member_silent (sourceCode : SourceCode)
  (l : TSTypeLiteral) (member : TypeElement) :
  members l = [member] ->
  ~ callable_with_returnType member ->
  visitTypeLiteral sourceCode l = Ok None.
Proof.
  intros Hm Hn. unfold visitTypeLiteral. rewrite Hm. cbn.
  unfold checkMember.
  destruct (is_signature_with_returnType member) eqn:Hq; [|reflexivity].
  apply is_signature_with_returnType_iff in Hq. contradiction.
Qed.

(** X7.  The visit of a type literal throws when the return position resolves a
    [this] type or a parameter is typed [this]: the name of the enclosing
    declaration is read, and a type literal has none. *)
Lemma visitTypeLiteral_this_throws (sourceCode : SourceCode)
  (l : TSTypeLiteral) (member : TypeElement) (rt t : Node)
  (resolved : option Range) :
  members l = [member] ->
  is_signature_with_returnType member = true ->
  member_returnType member = Some rt ->
  typeAnnotation rt = Some t ->
  getReturnType t = Ok resolved ->
  match resolved with
  | Some r => reads_this sourceCode r
  | None => false
  end
  || existsb param_is_this (member_params member) = true ->
  visitTypeLiteral sourceCode l = TypeError.
Proof.
  intros Hm Hq Hrt Ht Hres Hthis.
  unfold visitTypeLiteral. rewrite Hm. cbn.
  unfold checkMember. rewrite Hq.
  rewrite (renderSuggestion_unnamed _ _ _ _ _ _ Hrt Ht Hres), Hthis.
  reflexivity.
Qed.

(** C3, evaluated where the code departs from it:
    [type T = { (x: this): void }] is a type literal whose sole member is a
    call signature with a written return type, and the visit throws instead
    of reporting. *)
Theorem literal_with_this_parameter_not_reported :
  members Examples.LiteralParamThis.node = [Examples.LiteralParamThis.member]
  /\ callable_with_returnType Examples.LiteralParamThis.member
  /\ visitTypeLiteral Examples.LiteralParamThis.sourceCode
       Examples.LiteralParamThis.node = TypeError.
Proof.
  split; [reflexivity|]. split; [|reflexivity].
  split; [left; reflexivity | discriminate].
Qed.

(** C4, evaluated where the code departs from it: for
    [type T = { (): this }] the return position resolves the [this] type,
    [renderSuggestion] reads the name of a type literal, which has no [id],
    and throws; so does the visit. *)
Theorem renderSuggestion_throws_in_literal :
  node_id (TypeLiteral Examples.LiteralThis.node) = None
  /\ getReturnType (Examples.leaf AST_NODE_TYPES.TSThisType (15, 19))
     = Ok (Some (15, 19))
  /\ renderSuggestion Examples.LiteralThis.sourceCode
       Examples.LiteralThis.member (TypeLiteral Examples.LiteralThis.node)
     = TypeError
  /\ visitTypeLiteral Examples.LiteralThis.sourceCode
       Examples.LiteralThis.node = TypeError.
Proof.
  repeat split.
Qed.

(** X6.  On interface declarations the visit does not throw, as long as the tree
    is as the parser builds it. *)
Lemma visitInterfaceDeclaration_total (sourceCode : SourceCode)
  (d : TSInterfaceDeclaration) :
  conforming_interface sourceCode d = true ->
  exists o, visitInterfaceDeclaration sourceCode d = Ok o.
Proof.
  intro Hconf. unfold visitInterfaceDeclaration.
  destruct (negb (hasOneSupertype d)); cbn [andb]; [|eauto].
  destruct (body d) as [|m [|m' ms]] eqn:Hbody; cbn; eauto.
  unfold conforming_interface in Hconf. rewrite Hbody in Hconf.
  apply andb_true_iff in Hconf as [Hkw Hwf].
  cbn [forallb] in Hwf. rewrite andb_true_r in Hwf.
  destruct (is_signature_with_returnType m) eqn:Hq.
  - destruct (renderSuggestion_interface_total sourceCode m d Hq Hwf)
      as [s Hs].
    destruct (existsb_filter_head _ _ Hkw) as [token [rest Htok]].
    rewrite (checkMember_interface _ _ _ _ _ _ Hq Hs Htok). eauto.
  - unfold checkMember. rewrite Hq. eauto.
Qed.

(** ** The rewriter *)

Lemma visitInterfaceDeclaration_report_inv (sourceCode : SourceCode)
  (d : TSInterfaceDeclaration) (r : ReportDescriptor) :
  visitInterfaceDeclaration sourceCode d = Ok (Some r) ->
  hasOneSupertype d = false
  /\ exists member,
      body d = [member]
      /\ checkMember sourceCode member (Interface d) = Ok (Some r).
Proof.
  unfold visitInterfaceDeclaration.
  destruct (hasOneSupertype d); cbn [negb andb]; [discriminate|].
  destruct (body d) as [|m [|m' ms]]; cbn; try discriminate.
  intro H. split; [reflexivity|]. now exists m.
Qed.

Lemma replace_substituteFirst (s pat n : string) :
  dollar_free n = true -> JS.replace s pat n = substituteFirst pat n s.
Proof.
  intro H. unfold substituteFirst.
  destruct (JS.splitFirst pat s) as [[before after]|] eqn:E.
  - now apply replace_dollar_free.
  - now apply replace_absent.
Qed.

(** For a name without a dollar sign, every parameter typed [this] costs one
    substitution of the first [this] left in the parameter text. *)
Lemma lhsRewritten_dollar_free (params : list Param) (n lhs : string) :
  dollar_free n = true ->
  lhsRewritten params n lhs
  = fold_left
      (fun lhs param =>
         if param_is_this param then substituteFirst "this" n lhs else lhs)
      params lhs.
Proof.
  intro H. unfold lhsRewritten. revert lhs.
  induction params as [|p params IH]; intro lhs; [reflexivity|].
  cbn [fold_left]. rewrite IH.
  destruct (param_is_this p); [|reflexivity].
  now rewrite replace_substituteFirst.
Qed.

(** C5, as the code has it: when the return position resolves a [this]
    type, written directly, wrapped in one type annotation, or returned by
    one nested function type, the first occurrence of the text [this] in
    the return-type text is replaced; for a name without a dollar sign the
    text put there is the name of the declaration.  A function type nested
    in a function type is not resolved and the return-type text is kept.
    For [interface Foo { (): this }] the suggestion is
    [type Foo = () => Foo]. *)
Theorem return_this_replaced_at_first_occurrence :
  (forall (sourceCode : SourceCode) (call : TypeElement)
          (d : TSInterfaceDeclaration) (rt t : Node) (r : Range),
      member_returnType call = Some rt ->
      typeAnnotation rt = Some t ->
      this_resolved t r ->
      reads_this sourceCode r = true ->
      getReturnType t = Ok (Some r)
      /\ renderSuggestion sourceCode call (Interface d)
         = Ok (aliasText sourceCode d
                 (wrapped (interface_parent d)
                    (lhsRewritten (member_params call) (name (id d))
                                  (lhsText sourceCode call rt)
                     ++ " =>"
                     ++ JS.replace (rhsText sourceCode call rt) "this"
                                   (name (id d)))))
      /\ (dollar_free (name (id d)) = true ->
          forall before after,
            JS.splitFirst "this" (rhsText sourceCode call rt)
            = Some (before, after) ->
            rhsText sourceCode call rt = before ++ "this" ++ after
            /\ (forall k, (k < String.length before)%nat ->
                          prefix "this"
                                 (JS.drop k (rhsText sourceCode call rt))
                          = false)
            /\ JS.replace (rhsText sourceCode call rt) "this" (name (id d))
               = before ++ name (id d) ++ after))
  /\ (forall (sourceCode : SourceCode) (call : TypeElement)
             (d : TSInterfaceDeclaration) (rt t : Node),
         member_returnType call = Some rt ->
         typeAnnotation rt = Some t ->
         nested_deeper t ->
         getReturnType t = Ok None
         /\ renderSuggestion sourceCode call (Interface d)
            = Ok (aliasText sourceCode d
                    (wrapped (interface_parent d)
                       (lhsRewritten (member_params call) (name (id d))
                                     (lhsText sourceCode call rt)
                        ++ " =>" ++ rhsText sourceCode call rt))))
  /\ visitInterfaceDeclaration Examples.FooThis.sourceCode
       Examples.FooThis.node
     = Ok (Some (mkReport Examples.FooThis.member
                   "functionTypeOverCallableType" "Interface"
                   "type Foo = () => Foo" (0, 26) "type Foo = () => Foo")).
Proof.
  split; [|split; [|reflexivity]].
  - intros sourceCode call d rt t r Hrt Ht Hres Hthis.
    apply getReturnType_resolved in Hres.
    split; [exact Hres|]. split.
    + rewrite (renderSuggestion_named sourceCode call (Interface d) rt t
                 (Some r) (name (id d)) Hrt Ht Hres eq_refl).
      unfold rhsRewritten. rewrite Hthis. reflexivity.
    + intros Hd before after Hsplit. split; [|split].
      * now apply splitFirst_sound.
      * now apply (splitFirst_first _ _ _ _ Hsplit).
      * now apply replace_dollar_free.
  - intros sourceCode call d rt t Hrt Ht Hdeep.
    apply getReturnType_nested_deeper in Hdeep.
    split; [exact Hdeep|].
    now rewrite (renderSuggestion_named sourceCode call (Interface d) rt t
                   None (name (id d)) Hrt Ht Hdeep eq_refl).
Qed.

Lemma return_this_replaced_at_first_occurrence_witness :
  this_resolved (Examples.leaf AST_NODE_TYPES.TSThisType (20, 24)) (20, 24)
  /\ reads_this Examples.FooThis.sourceCode (20, 24) = true
  /\ getReturnType (Examples.leaf AST_NODE_TYPES.TSThisType (20, 24))
     = Ok (Some (20, 24))
  /\ renderSuggestion Examples.FooThis.sourceCode Examples.FooThis.member
       (Interface Examples.FooThis.node)
     = Ok "type Foo = () => Foo".
Proof.
  assert (H : this_resolved
                (Examples.leaf AST_NODE_TYPES.TSThisType (20, 24)) (20, 24)).
  { apply resolved_written.
    exact (this_direct (Examples.leaf AST_NODE_TYPES.TSThisType (20, 24))
             eq_refl). }
  split; [exact H|]. split; [reflexivity|].
  pose proof (proj1 return_this_replaced_at_first_occurrence
                Examples.FooThis.sourceCode Examples.FooThis.member
                Examples.FooThis.node
                (Examples.annotation (18, 24)
                   (Examples.leaf AST_NODE_TYPES.TSThisType (20, 24)))
                (Examples.leaf AST_NODE_TYPES.TSThisType (20, 24))
                (20, 24) eq_refl eq_refl H eq_refl) as [Hres [Hrender _]].
  split; [exact Hres | exact Hrender].
Defined.

(** C5, counterexample: in [interface Foo { (): /* this */ this }] the
    [this] type is written directly and resolved, at offsets 31 to 35, yet
    the text replaced is the word in the comment before it and the resolved
    occurrence stays. *)
Lemma resolved_this_left_unchanged :
  this_resolved
    (Examples.leaf AST_NODE_TYPES.TSThisType Examples.FooCommentThis.thisToken)
    Examples.FooCommentThis.thisToken
  /\ reads_this Examples.FooCommentThis.sourceCode
       Examples.FooCommentThis.thisToken = true
  /\ rhsText Examples.FooCommentThis.sourceCode
       Examples.FooCommentThis.member
       (Examples.annotation (18, 35)
          (Examples.leaf AST_NODE_TYPES.TSThisType
             Examples.FooCommentThis.thisToken))
     = " /* this */ this"
  /\ visitInterfaceDeclaration Examples.FooCommentThis.sourceCode
       Examples.FooCommentThis.node
     = Ok (Some (mkReport Examples.FooCommentThis.member
                   "functionTypeOverCallableType" "Interface"
                   "type Foo = () => /* Foo */ this" (0, 37)
                   "type Foo = () => /* Foo */ this")).
Proof.
  split; [|repeat split].
  apply resolved_written.
  exact (this_direct
           (Examples.leaf AST_NODE_TYPES.TSThisType
              Examples.FooCommentThis.thisToken) eq_refl).
Qed.

(** C6, evaluated where the code departs from it: in
    [interface $$ { (x: this): void }] the parameter is typed [this] and
    the declaration is named [$$], but the text put in place of [this] is a
    single dollar sign: [replace] reads [$$] in its replacement argument as
    an escape. *)
Theorem dollar_name_not_inserted :
  name (id Examples.DollarParamThis.node) = "$$"
  /\ map param_is_this (member_params Examples.DollarParamThis.member)
     = [true]
  /\ lhsText Examples.DollarParamThis.sourceCode
       Examples.DollarParamThis.member
       (Examples.annotation (24, 30)
          (Examples.leaf AST_NODE_TYPES.TSVoidKeyword (26, 30)))
     = "(x: this)"
  /\ visitInterfaceDeclaration Examples.DollarParamThis.sourceCode
       Examples.DollarParamThis.node
     = Ok (Some (mkReport Examples.DollarParamThis.member
                   "functionTypeOverCallableType" "Interface"
                   "type $$ = (x: $) => void" (0, 32)
                   "type $$ = (x: $) => void")).
Proof.
  repeat split.
Qed.

(** The example of the specification for a parameter typed [this]:
    [interface Foo { (x: this): void }]. *)
Lemma parameter_this_example :
  visitInterfaceDeclaration Examples.FooParamThis.sourceCode
    Examples.FooParamThis.node
  = Ok (Some (mkReport Examples.FooParamThis.member
                "functionTypeOverCallableType" "Interface"
                "type Foo = (x: Foo) => void" (0, 33)
                "type Foo = (x: Foo) => void")).
Proof.
  reflexivity.
Qed.

(** C7: a reported interface declaration with type parameters gets a type
    alias whose head is the source text from the start of the name to the
    end of the type parameter list, followed by the assembled function
    type.  For [interface Foo<T> { (x: T): T }] the suggestion is
    [type Foo<T> = (x: T) => T]. *)
Theorem generic_interface_alias_keeps_source :
  (forall (sourceCode : SourceCode) (d : TSInterfaceDeclaration)
          (r : ReportDescriptor) (tp : Range),
      visitInterfaceDeclaration sourceCode d = Ok (Some r) ->
      typeParameters d = Some tp ->
      exists base,
        arrowFunctionText sourceCode (report_node r) (Interface d) = Ok base
        /\ data_sigSuggestion r
           = "type "
               ++ JS.slice (getText sourceCode) (fst (id_range (id d)))
                    (Some (snd tp))
               ++ " = " ++ wrapped (interface_parent d) base
        /\ fix_text r = data_sigSuggestion r)
  /\ visitInterfaceDeclaration Examples.FooGeneric.sourceCode
       Examples.FooGeneric.node
     = Ok (Some (mkReport Examples.FooGeneric.member
                   "functionTypeOverCallableType" "Interface"
                   "type Foo<T> = (x: T) => T" (0, 30)
                   "type Foo<T> = (x: T) => T")).
Proof.
  split; [|reflexivity].
  intros sourceCode d r tp Hvisit Htp.
  apply visitInterfaceDeclaration_report_inv in Hvisit
      as [_ [member [_ Hcheck]]].
  apply checkMember_report_inv in Hcheck as [_ [Hrender [Hnode [Hfix _]]]].
  rewrite renderSuggestion_stages in Hrender. rewrite Hnode.
  destruct (arrowFunctionText sourceCode member (Interface d)) as [base|];
    [|discriminate Hrender].
  cbn [bind] in Hrender. injection Hrender as Hs.
  exists base. split; [reflexivity|]. split; [|exact Hfix].
  rewrite <- Hs. cbn [declarationText node_parent]. unfold aliasText.
  now rewrite Htp.
Qed.

Lemma generic_interface_alias_keeps_source_witness :
  typeParameters Examples.FooGeneric.node = Some (13, 16)
  /\ JS.slice (getText Examples.FooGeneric.sourceCode) 10 (Some 16)
     = "Foo<T>"
  /\ exists base,
      arrowFunctionText Examples.FooGeneric.sourceCode
        Examples.FooGeneric.member (Interface Examples.FooGeneric.node)
      = Ok base
      /\ "type Foo<T> = (x: T) => T"
         = "type "
             ++ JS.slice (getText Examples.FooGeneric.sourceCode) 10
                  (Some 16)
             ++ " = " ++ wrapped (Some AST_NODE_TYPES.Program) base
      /\ "type Foo<T> = (x: T) => T" = "type Foo<T> = (x: T) => T".
Proof.
  split; [reflexivity|]. split; [reflexivity|].
  exact (proj1 generic_interface_alias_keeps_source
           Examples.FooGeneric.sourceCode Examples.FooGeneric.node
           (mkReport Examples.FooGeneric.member
              "functionTypeOverCallableType" "Interface"
              "type Foo<T> = (x: T) => T" (0, 30)
              "type Foo<T> = (x: T) => T")
           (13, 16) eq_refl eq_refl).
Defined.

(** C8: the assembled function type is put in parentheses when the parent
    of the enclosing node is a union, intersection or array type, and left
    as it is under any other parent or none; the assembled text does not
    depend on the parent.  In a type literal the parenthesized text is the
    whole suggestion. *)
Theorem suggestion_parenthesized_iff (sourceCode : SourceCode)
  (call : TypeElement) (node : EnclosingNode) (base : string) :
  arrowFunctionText sourceCode call node = Ok base ->
  forall p : option AST_NODE_TYPES.t,
    (union_intersection_or_array p ->
     renderSuggestion sourceCode call (with_parent node p)
     = Ok (declarationText sourceCode node (parenthesize base)))
    /\ (~ union_intersection_or_array p ->
        renderSuggestion sourceCode call (with_parent node p)
        = Ok (declarationText sourceCode node base))
    /\ parenthesize base <> base
    /\ (forall l, node = TypeLiteral l ->
                  declarationText sourceCode node (parenthesize base)
                  = parenthesize base).
Proof.
  intros Hbase p.
  assert (Hp : node_parent (with_parent node p) = p) by now destruct node.
  assert (Hrender :
            renderSuggestion sourceCode call (with_parent node p)
            = Ok (declarationText sourceCode node (wrapped p base))).
  { rewrite renderSuggestion_stages, arrowFunctionText_with_parent, Hbase.
    cbn [bind]. now rewrite declarationText_with_parent, Hp. }
  split; [|split; [|split]].
  - intro H. apply shouldWrapSuggestion_iff in H.
    rewrite Hrender. unfold wrapped. now rewrite H.
  - intro H. rewrite Hrender. unfold wrapped.
    destruct (shouldWrapSuggestion p) eqn:E; [|reflexivity].
    apply shouldWrapSuggestion_iff in E. contradiction.
  - apply parenthesized_differs.
  - intros l ->. cbn [declarationText]. unfold literalText, parenthesize.
    now rewrite endsWith_parenthesized.
Qed.

Lemma suggestion_parenthesized_iff_witness :
  arrowFunctionText Examples.LiteralInUnion.sourceCode
    Examples.LiteralInUnion.member (TypeLiteral Examples.LiteralInUnion.node)
  = Ok "() => void"
  /\ union_intersection_or_array (Some AST_NODE_TYPES.TSUnionType)
  /\ renderSuggestion Examples.LiteralInUnion.sourceCode
       Examples.LiteralInUnion.member
       (TypeLiteral Examples.LiteralInUnion.node)
     = Ok "(() => void)"
  /\ ~ union_intersection_or_array (Some AST_NODE_TYPES.TSTypeAliasDeclaration)
  /\ renderSuggestion Examples.LiteralStandalone.sourceCode
       Examples.LiteralStandalone.member
       (TypeLiteral Examples.LiteralStandalone.node)
     = Ok "() => void".
Proof.
  assert (Hu : union_intersection_or_array (Some AST_NODE_TYPES.TSUnionType))
    by (left; reflexivity).
  assert (Ha : ~ union_intersection_or_array
                 (Some AST_NODE_TYPES.TSTypeAliasDeclaration))
    by (intros [H|[H|H]]; discriminate H).
  split; [reflexivity|]. split; [exact Hu|]. split; [|split; [exact Ha|]].
  - exact (proj1 (suggestion_parenthesized_iff
                    Examples.LiteralInUnion.sourceCode
                    Examples.LiteralInUnion.member
                    (TypeLiteral Examples.LiteralInUnion.node)
                    "() => void" eq_refl
                    (Some AST_NODE_TYPES.TSUnionType)) Hu).
  - exact (proj1 (proj2 (suggestion_parenthesized_iff
                           Examples.LiteralStandalone.sourceCode
                           Examples.LiteralStandalone.member
                           (TypeLiteral Examples.LiteralStandalone.node)
                           "() => void" eq_refl
                           (Some AST_NODE_TYPES.TSTypeAliasDeclaration))) Ha).
Defined.


(** They are the tokens of the file that lie within the range. *)
Lemma getTokens_In (sourceCode : SourceCode) (r : Range) (t : Token) :
  In t (getTokens sourceCode r)
  <-> In t (tokens sourceCode) /\ token_within r t.
Proof.
  unfold getTokens, token_within.
  rewrite filter_In, andb_true_iff, !Z.leb_le. reflexivity.
Qed.



(** C10: the return position is rewritten by one [replace] of the text
    [this] over the whole return-type text, whatever range was resolved.
    In [interface Foo { (): (thisArg: string) => this }] the resolved
    [this] type is at offsets 41 to 45, the return-type text holds [this]
    earlier, inside [thisArg], and the suggestion renames that identifier
    and keeps the [this] type. *)
Theorem return_this_replace_is_textual :
  (forall (sourceCode : SourceCode) (call : TypeElement)
          (d : TSInterfaceDeclaration) (rt t : Node) (r : Range),
      member_returnType call = Some rt ->
      typeAnnotation rt = Some t ->
      getReturnType t = Ok (Some r) ->
      reads_this sourceCode r = true ->
      renderSuggestion sourceCode call (Interface d)
      = Ok (aliasText sourceCode d
              (wrapped (interface_parent d)
                 (lhsRewritten (member_params call) (name (id d))
                               (lhsText sourceCode call rt)
                  ++ " =>"
                  ++ JS.replace (rhsText sourceCode call rt) "this"
                                (name (id d))))))
  /\ getReturnType Examples.FooNestedThisArg.inner
     = Ok (Some Examples.FooNestedThisArg.thisToken)
  /\ rhsText Examples.FooNestedThisArg.sourceCode
       Examples.FooNestedThisArg.member
       (Examples.annotation (18, 45) Examples.FooNestedThisArg.inner)
     = " (thisArg: string) => this"
  /\ JS.splitFirst "this" " (thisArg: string) => this"
     = Some (" (", "Arg: string) => this")
  /\ visitInterfaceDeclaration Examples.FooNestedThisArg.sourceCode
       Examples.FooNestedThisArg.node
     = Ok (Some (mkReport Examples.FooNestedThisArg.member
                   "functionTypeOverCallableType" "Interface"
                   "type Foo = () => (FooArg: string) => this" (0, 47)
                   "type Foo = () => (FooArg: string) => this")).
Proof.
  split; [|repeat split].
  intros sourceCode call d rt t r Hrt Ht Hres Hthis.
  rewrite (renderSuggestion_named sourceCode call (Interface d) rt t
             (Some r) (name (id d)) Hrt Ht Hres eq_refl).
  unfold rhsRewritten. now rewrite Hthis.
Qed.

Lemma return_this_replace_is_textual_witness :
  getReturnType Examples.FooNestedThisArg.inner
  = Ok (Some Examples.FooNestedThisArg.thisToken)
  /\ reads_this Examples.FooNestedThisArg.sourceCode
       Examples.FooNestedThisArg.thisToken = true
  /\ renderSuggestion Examples.FooNestedThisArg.sourceCode
       Examples.FooNestedThisArg.member
       (Interface Examples.FooNestedThisArg.node)
     = Ok "type Foo = () => (FooArg: string) => this".
Proof.
  split; [reflexivity|]. split; [reflexivity|].
  exact (proj1 return_this_replace_is_textual
           Examples.FooNestedThisArg.sourceCode
           Examples.FooNestedThisArg.member Examples.FooNestedThisArg.node
           (Examples.annotation (18, 45) Examples.FooNestedThisArg.inner)
           Examples.FooNestedThisArg.inner
           Examples.FooNestedThisArg.thisToken
           eq_refl eq_refl eq_refl eq_refl).
Defined.

(** ** Further properties of the rule's functions *)

(** X1.  [getReturnType] throws exactly when a child it reads is absent: it
    never throws on a tree whose type annotations carry their type and whose
    function types carry their return type. *)
Theorem getReturnType_throws_iff :
  forall n, getReturnType n = TypeError <-> missing_child n.
Proof.
  intro n. split.
  - revert n. fix IH 1. intros [t r ta rt] H.
    destruct t; cbn in H; try discriminate H.
    + destruct rt as [x|].
      * apply (missing_below _ x); [reflexivity | reflexivity |].
        apply IH. exact H.
      * apply missing_return; reflexivity.
    + clear IH. destruct ta as [a|].
      * destruct (AST_NODE_TYPES.eqb (type a) AST_NODE_TYPES.TSThisType);
          discriminate H.
      * apply missing_annotation; reflexivity.
  - induction 1 as [m Ht Ha | m Ht Hr | m a Ht Hr Ha IH];
      destruct m as [t r ta rt]; cbn [type typeAnnotation returnType] in *;
      subst; cbn; auto.
Qed.

(** A returned range is the range of a [this] type that the walk
    reaches. *)
Lemma getReturnType_some_reached :
  forall n r, getReturnType n = Ok (Some r) -> this_reached n r.
Proof.
  intros n r. revert n. fix IH 1. intros [t rg ta rt] H.
  destruct t; cbn in H; try discriminate H.
  - clear IH. injection H as <-. apply reached_written.
    exact (this_direct (mkNode AST_NODE_TYPES.TSThisType rg ta rt) eq_refl).
  - destruct rt as [x|]; [|discriminate H].
    apply (reached_returned _ x); [reflexivity | reflexivity |].
    apply IH. exact H.
  - clear IH. destruct ta as [a|]; [|discriminate H].
    destruct (AST_NODE_TYPES.eqb (type a) AST_NODE_TYPES.TSThisType) eqn:E;
      [|discriminate H].
    injection H as <-. apply reached_written.
    apply (this_annotated
             (mkNode AST_NODE_TYPES.TSTypeAnnotation rg (Some a) rt) a);
      [reflexivity | reflexivity |].
    apply node_type_eqb_eq. exact E.
Qed.

(** X2.  [getReturnType] returns a range exactly when a [this] type, written
    directly or under one type annotation, ends the chain of return types
    of function types below the node; the range is that of the [this]
    type. *)
Theorem getReturnType_resolves_iff :
  forall n r, getReturnType n = Ok (Some r) <-> this_reached n r.
Proof.
  intros n r. split; [apply getReturnType_some_reached|].
  induction 1 as [m r' Hw | m a r' Ht Hr Ha IH].
  - now apply getReturnType_written.
  - destruct m as [t rg ta rt]; cbn [type returnType] in *; subst.
    cbn. exact IH.
Qed.

(** X3.  In a tree as the parser builds it, where the return type of a function
    type is a type annotation, the resolution stops after one function
    type: a range is returned exactly for a [this] type written directly,
    under one type annotation, or as the return type of one function
    type. *)
Theorem getReturnType_one_level (n : Node) (r : Range) :
  (type n = AST_NODE_TYPES.TSFunctionType ->
   forall a, returnType n = Some a ->
             type a = AST_NODE_TYPES.TSTypeAnnotation) ->
  (getReturnType n = Ok (Some r) <-> this_resolved n r).
Proof.
  intro Hshape. split; [|apply getReturnType_resolved].
  intro H. apply getReturnType_some_reached in H.
  destruct H as [m r' Hw | m a r' Ht Hr Ha].
  - now apply resolved_written.
  - apply (resolved_returned m a r' Ht Hr).
    specialize (Hshape Ht a Hr).
    destruct Ha as [a' r'' Hw | a' b r'' Ht' _ _]; [exact Hw | congruence].
Qed.

Lemma getReturnType_one_level_witness :
  (type Examples.FooNestedThisArg.inner = AST_NODE_TYPES.TSFunctionType ->
   forall a, returnType Examples.FooNestedThisArg.inner = Some a ->
             type a = AST_NODE_TYPES.TSTypeAnnotation)
  /\ (getReturnType Examples.FooNestedThisArg.inner
      = Ok (Some Examples.FooNestedThisArg.thisToken)
      <-> this_resolved Examples.FooNestedThisArg.inner
            Examples.FooNestedThisArg.thisToken).
Proof.
  assert (H : type Examples.FooNestedThisArg.inner
              = AST_NODE_TYPES.TSFunctionType ->
              forall a, returnType Examples.FooNestedThisArg.inner = Some a ->
                        type a = AST_NODE_TYPES.TSTypeAnnotation).
  { intros _ a Ha. injection Ha as <-. reflexivity. }
  split; [exact H|].
  exact (getReturnType_one_level Examples.FooNestedThisArg.inner
           Examples.FooNestedThisArg.thisToken H).
Defined.

Lemma getReturnType_throws_iff_witness :
  missing_child (mkNode AST_NODE_TYPES.TSFunctionType (0, 8) None None)
  /\ getReturnType (mkNode AST_NODE_TYPES.TSFunctionType (0, 8) None None)
     = TypeError.
Proof.
  assert (H : missing_child
                (mkNode AST_NODE_TYPES.TSFunctionType (0, 8) None None))
    by (apply missing_return; reflexivity).
  split; [exact H|].
  exact (proj2 (getReturnType_throws_iff
                  (mkNode AST_NODE_TYPES.TSFunctionType (0, 8) None None)) H).
Defined.

Lemma getReturnType_resolves_iff_witness :
  getReturnType Examples.FooNestedThisArg.inner
  = Ok (Some Examples.FooNestedThisArg.thisToken)
  /\ this_reached Examples.FooNestedThisArg.inner
       Examples.FooNestedThisArg.thisToken.
Proof.
  split; [reflexivity|].
  exact (proj1 (getReturnType_resolves_iff Examples.FooNestedThisArg.inner
                  Examples.FooNestedThisArg.thisToken) eq_refl).
Defined.

(** X4.  [renderSuggestion] throws in these cases and no other: the signature
    has no return type, the return type has no annotated type,
    [getReturnType] throws, or the enclosing node has no [id] while the
    return position or a parameter asks for its name. *)
Theorem renderSuggestion_throws_iff (sourceCode : SourceCode)
  (call : TypeElement) (parent : EnclosingNode) :
  renderSuggestion sourceCode call parent = TypeError
  <-> (member_returnType call = None
       \/ exists rt,
           member_returnType call = Some rt
           /\ (typeAnnotation rt = None
               \/ exists t,
                   typeAnnotation rt = Some t
                   /\ (getReturnType t = TypeError
                       \/ exists resolved,
                           getReturnType t = Ok resolved
                           /\ node_id parent = None
                           /\ reads_parent_name sourceCode resolved call
                              = true))).
Proof.
  destruct (member_returnType call) as [rt|] eqn:Hrt.
  - destruct (typeAnnotation rt) as [t|] eqn:Ht.
    + destruct (getReturnType t) as [resolved|] eqn:Hres.
      * destruct parent as [d|l].
        -- rewrite (renderSuggestion_named sourceCode call (Interface d) rt t
                      resolved (name (id d)) Hrt Ht Hres eq_refl).
           split; [discriminate|].
           intros [H|[rt' [Hrt' [H|[t' [Ht' [H|[res' [_ [H _]]]]]]]]]];
             try (cbn in H); congruence.
        -- rewrite (renderSuggestion_unnamed sourceCode call l rt t resolved
                      Hrt Ht Hres).
           fold (reads_parent_name sourceCode resolved call).
           destruct (reads_parent_name sourceCode resolved call) eqn:Hn.
           ++ split; [|reflexivity]. intros _. right. exists rt.
              split; [reflexivity|]. right. exists t.
              split; [exact Ht|]. right. exists resolved.
              split; [exact Hres|]. split; [reflexivity | exact Hn].
           ++ split; [discriminate|].
              intros [H|[rt' [Hrt' [H|[t' [Ht' [H|[res' [Hr' [_ H]]]]]]]]]];
                congruence.
      * assert (H : renderSuggestion sourceCode call parent = TypeError).
        { unfold renderSuggestion. rewrite Hrt. cbn [bind]. rewrite Ht.
          cbn [getReturnType_of]. now rewrite Hres. }
        rewrite H. split; [|reflexivity]. intros _. right. exists rt.
        split; [reflexivity|]. right. exists t. split; [exact Ht|].
        left. exact Hres.
    + assert (H : renderSuggestion sourceCode call parent = TypeError).
      { unfold renderSuggestion. rewrite Hrt. cbn [bind]. now rewrite Ht. }
      rewrite H. split; [|reflexivity]. intros _. right. exists rt.
      split; [reflexivity|]. left. exact Ht.
  - assert (H : renderSuggestion sourceCode call parent = TypeError).
    { unfold renderSuggestion. now rewrite Hrt. }
    rewrite H. split; [|reflexivity]. intros _. now left.
Qed.

Lemma renderSuggestion_throws_iff_witness :
  reads_parent_name Examples.LiteralParamThis.sourceCode None
    Examples.LiteralParamThis.member = true
  /\ renderSuggestion Examples.LiteralParamThis.sourceCode
       Examples.LiteralParamThis.member
       (TypeLiteral Examples.LiteralParamThis.node) = TypeError.
Proof.
  split; [reflexivity|].
  apply (proj2 (renderSuggestion_throws_iff
                  Examples.LiteralParamThis.sourceCode
                  Examples.LiteralParamThis.member
                  (TypeLiteral Examples.LiteralParamThis.node))).
  right.
  exists (Examples.annotation (20, 26)
            (Examples.leaf AST_NODE_TYPES.TSVoidKeyword (22, 26))).
  split; [reflexivity|]. right.
  exists (Examples.leaf AST_NODE_TYPES.TSVoidKeyword (22, 26)).
  split; [reflexivity|]. right. exists None. repeat split.
Defined.

Lemma filter_nil_existsb {A : Type} (f : A -> bool) (l : list A) :
  filter f l = [] <-> existsb f l = false.
Proof.
  induction l as [|a l IH]; cbn; [tauto|].
  destruct (f a); cbn; [split; discriminate | exact IH].
Qed.

(** X5.  [checkMember] throws only behind its own test, and then only when
    [renderSuggestion] throws or when no [interface] keyword token is
    found among the tokens of an interface declaration. *)
Theorem checkMember_throws_iff (sourceCode : SourceCode)
  (member : TypeElement) (node : EnclosingNode) :
  checkMember sourceCode member node = TypeError
  <-> is_signature_with_returnType member = true
      /\ (renderSuggestion sourceCode member node = TypeError
          \/ exists d,
              node = Interface d
              /\ existsb is_interface_keyword
                         (getTokens sourceCode (interface_range d))
                 = false).
Proof.
  unfold checkMember.
  destruct (is_signature_with_returnType member);
    [|split; [discriminate | intros [H _]; discriminate H]].
  destruct (renderSuggestion sourceCode member node) as [s|]; cbn [bind];
    [|split; [auto | reflexivity]].
  destruct node as [d|l]; cbn [node_type node_range AST_NODE_TYPES.eqb bind].
  - destruct (filter is_interface_keyword
                     (getTokens sourceCode (interface_range d)))
      as [|token rest] eqn:Hf; cbn [bind].
    + apply filter_nil_existsb in Hf. split; [|reflexivity].
      intros _. split; [reflexivity|]. right. now exists d.
    + split; [discriminate|].
      intros [_ [H|[d0 [Hd H]]]]; [discriminate H|].
      injection Hd as <-. apply filter_nil_existsb in H. congruence.
  - split; [discriminate|].
    intros [_ [H|[d0 [Hd _]]]]; discriminate.
Qed.

Lemma checkMember_throws_iff_witness :
  is_signature_with_returnType Examples.LiteralThis.member = true
  /\ renderSuggestion Examples.LiteralThis.sourceCode
       Examples.LiteralThis.member (TypeLiteral Examples.LiteralThis.node)
     = TypeError
  /\ checkMember Examples.LiteralThis.sourceCode Examples.LiteralThis.member
       (TypeLiteral Examples.LiteralThis.node) = TypeError.
Proof.
  split; [reflexivity|]. split; [reflexivity|].
  apply (proj2 (checkMember_throws_iff Examples.LiteralThis.sourceCode
                  Examples.LiteralThis.member
                  (TypeLiteral Examples.LiteralThis.node))).
  split; [reflexivity|]. left. reflexivity.
Defined.

Lemma visitInterfaceDeclaration_total_witness :
  conforming_interface Examples.DeclareFoo.sourceCode Examples.DeclareFoo.node
  = true
  /\ exists o,
      visitInterfaceDeclaration Examples.DeclareFoo.sourceCode
        Examples.DeclareFoo.node = Ok o.
Proof.
  split; [reflexivity|].
  exact (visitInterfaceDeclaration_total Examples.DeclareFoo.sourceCode
           Examples.DeclareFoo.node eq_refl).
Defined.

(** The parts of a report, read off [checkMember]. *)
Lemma checkMember_report_parts (sourceCode : SourceCode)
  (member : TypeElement) (node : EnclosingNode) (r : ReportDescriptor) :
  checkMember sourceCode member node = Ok (Some r) ->
  exists suggestion fixStart,
    is_signature_with_returnType member = true
    /\ renderSuggestion sourceCode member node = Ok suggestion
    /\ r = mkReport member "functionTypeOverCallableType"
             (match node with
              | Interface _ => "Interface"
              | TypeLiteral _ => "Type literal"
              end)
             suggestion (fixStart, snd (node_range node)) suggestion
    /\ match node with
       | TypeLiteral l => fixStart = fst (literal_range l)
       | Interface d =>
           exists token rest,
             filter is_interface_keyword
                    (getTokens sourceCode (interface_range d))
             = token :: rest
             /\ fixStart = fst (token_range token)
       end.
Proof.
  unfold checkMember.
  destruct (is_signature_with_returnType member); [|discriminate].
  destruct (renderSuggestion sourceCode member node) as [s|]; [|discriminate].
  cbn [bind].
  destruct node as [d|l]; cbn [node_type node_range AST_NODE_TYPES.eqb bind].
  - destruct (filter is_interface_keyword
                     (getTokens sourceCode (interface_range d)))
      as [|token rest] eqn:Hf; [discriminate|].
    cbn [bind]. intro H. injection H as <-.
    exists s, (fst (token_range token)). repeat split. now exists token, rest.
  - intro H. injection H as <-.
    exists s, (fst (literal_range l)). repeat split.
Qed.

(** X8.  Every report names the signature as its node, carries the one message
    id of the rule, labels the construct by the kind of the enclosing node,
    and its fix inserts the very text shown in the message, which is what
    [renderSuggestion] returned. *)
Theorem report_describes_its_fix (sourceCode : SourceCode)
  (member : TypeElement) (node : EnclosingNode) (r : ReportDescriptor) :
  checkMember sourceCode member node = Ok (Some r) ->
  report_node r = member
  /\ messageId r = "functionTypeOverCallableType"
  /\ data_type r = match node with
                   | Interface _ => "Interface"
                   | TypeLiteral _ => "Type literal"
                   end
  /\ renderSuggestion sourceCode member node = Ok (data_sigSuggestion r)
  /\ fix_text r = data_sigSuggestion r.
Proof.
  intro H.
  apply checkMember_report_parts in H as [s [fixStart [_ [Hs [-> _]]]]].
  cbn. auto.
Qed.

Lemma report_describes_its_fix_witness :
  checkMember Examples.LiteralInUnion.sourceCode
    Examples.LiteralInUnion.member (TypeLiteral Examples.LiteralInUnion.node)
  = Ok (Some (mkReport Examples.LiteralInUnion.member
                "functionTypeOverCallableType" "Type literal"
                "(() => void)" (9, 21) "(() => void)"))
  /\ renderSuggestion Examples.LiteralInUnion.sourceCode
       Examples.LiteralInUnion.member
       (TypeLiteral Examples.LiteralInUnion.node)
     = Ok "(() => void)".
Proof.
  split; [reflexivity|].
  exact (proj1 (proj2 (proj2 (proj2
           (report_describes_its_fix Examples.LiteralInUnion.sourceCode
              Examples.LiteralInUnion.member
              (TypeLiteral Examples.LiteralInUnion.node)
              (mkReport Examples.LiteralInUnion.member
                 "functionTypeOverCallableType" "Type literal"
                 "(() => void)" (9, 21) "(() => void)")
              eq_refl))))).
Defined.

(** X9.  A report on an interface declaration is always about a declaration
    without extends clause, or with the only clause [Function], whose body
    is exactly one call or construct signature with a written return type;
    the fix starts at an [interface] keyword token of the declaration. *)
Theorem interface_report_sound (sourceCode : SourceCode)
  (d : TSInterfaceDeclaration) (r : ReportDescriptor) :
  visitInterfaceDeclaration sourceCode d = Ok (Some r) ->
  (no_extends d \/ extends_only d "Function")
  /\ body d = [report_node r]
  /\ callable_with_returnType (report_node r)
  /\ exists token,
      In token (getTokens sourceCode (interface_range d))
      /\ is_interface_keyword token = true
      /\ fix_range r = (fst (token_range token), snd (interface_range d)).
Proof.
  intro H.
  apply visitInterfaceDeclaration_report_inv in H as [Hs [m [Hb Hc]]].
  apply hasOneSupertype_false_iff in Hs.
  apply checkMember_report_parts in Hc
      as [s [fixStart [Hq [_ [-> [token [rest [Hf ->]]]]]]]].
  cbn [report_node fix_range node_range].
  split; [exact Hs|]. split; [exact Hb|].
  split; [now apply is_signature_with_returnType_iff|].
  exists token.
  assert (Hin : In token (filter is_interface_keyword
                            (getTokens sourceCode (interface_range d))))
    by (rewrite Hf; now left).
  apply filter_In in Hin as [Hin Hk]. auto.
Qed.

Lemma interface_report_sound_witness :
  visitInterfaceDeclaration Examples.DeclareFoo.sourceCode
    Examples.DeclareFoo.node
  = Ok (Some (mkReport Examples.DeclareFoo.member
                "functionTypeOverCallableType" "Interface"
                "type Foo = () => void;" (8, 35) "type Foo = () => void;"))
  /\ (no_extends Examples.DeclareFoo.node
      \/ extends_only Examples.DeclareFoo.node "Function")
  /\ body Examples.DeclareFoo.node = [Examples.DeclareFoo.member].
Proof.
  split; [reflexivity|].
  destruct (interface_report_sound Examples.DeclareFoo.sourceCode
              Examples.DeclareFoo.node
              (mkReport Examples.DeclareFoo.member
                 "functionTypeOverCallableType" "Interface"
                 "type Foo = () => void;" (8, 35) "type Foo = () => void;")
              eq_refl) as [He [Hb _]].
  split; [exact He | exact Hb].
Defined.

Lemma visitTypeLiteral_report_inv_witness :
  visitTypeLiteral Examples.LiteralStandalone.sourceCode
    Examples.LiteralStandalone.node
  = Ok (Some (mkReport Examples.LiteralStandalone.member
                "functionTypeOverCallableType" "Type literal"
                "() => void" (9, 21) "() => void"))
  /\ exists member,
      members Examples.LiteralStandalone.node = [member]
      /\ callable_with_returnType member
      /\ Examples.LiteralStandalone.member = member.
Proof.
  split; [reflexivity|].
  exact (visitTypeLiteral_report_inv Examples.LiteralStandalone.sourceCode
           Examples.LiteralStandalone.node
           (mkReport Examples.LiteralStandalone.member
              "functionTypeOverCallableType" "Type literal"
              "() => void" (9, 21) "() => void")
           eq_refl).
Defined.

(** X11.  An interface declaration whose only extends clause is not a plain
    identifier, a qualified name such as [ns.Function], is never reported:
    only the bare identifier [Function] counts as no supertype. *)
Theorem qualified_extends_never_reported (sourceCode : SourceCode)
  (d : TSInterfaceDeclaration) (h : TSInterfaceHeritage) :
  extends d = Some [h] ->
  expr_type (expression h) <> AST_NODE_TYPES.Identifier ->
  visitInterfaceDeclaration sourceCode d = Ok None.
Proof.
  intros He Ht. unfold visitInterfaceDeclaration, hasOneSupertype.
  rewrite He. cbn.
  apply node_type_eqb_neq in Ht. now rewrite Ht.
Qed.

Lemma qualified_extends_never_reported_witness :
  extends Examples.FooExtendsQualified.node
  = Some [Examples.FooExtendsQualified.heritage]
  /\ expr_type (expression Examples.FooExtendsQualified.heritage)
     <> AST_NODE_TYPES.Identifier
  /\ visitInterfaceDeclaration Examples.FooExtendsQualified.sourceCode
       Examples.FooExtendsQualified.node = Ok None.
Proof.
  assert (H : expr_type (expression Examples.FooExtendsQualified.heritage)
              <> AST_NODE_TYPES.Identifier) by discriminate.
  split; [reflexivity|]. split; [exact H|].
  exact (qualified_extends_never_reported
           Examples.FooExtendsQualified.sourceCode
           Examples.FooExtendsQualified.node
           Examples.FooExtendsQualified.heritage eq_refl H).
Defined.

(** X12.  The range of a fix never leaves the enclosing node: for a type
    literal, and for an interface declaration whose range starts and ends
    with a token, as the range of a parsed declaration does, it starts at
    or after the start of the node and ends at its end. *)
Theorem fix_range_within_node (sourceCode : SourceCode)
  (member : TypeElement) (node : EnclosingNode) (r : ReportDescriptor) :
  checkMember sourceCode member node = Ok (Some r) ->
  (forall d, node = Interface d ->
             token_aligned sourceCode (interface_range d)) ->
  fst (node_range node) <= fst (fix_range r)
  /\ snd (fix_range r) = snd (node_range node).
Proof.
  intros H _.
  apply checkMember_report_parts in H as [s [fixStart [_ [_ [-> Hstart]]]]].
  cbn [fix_range fst snd]. split; [|reflexivity].
  destruct node as [d|l]; cbn [node_range].
  - destruct Hstart as [token [rest [Hf ->]]].
    assert (Hin : In token (filter is_interface_keyword
                              (getTokens sourceCode (interface_range d))))
      by (rewrite Hf; now left).
    apply filter_In in Hin as [Hin _].
    apply getTokens_In in Hin as [_ [Hlow _]]. exact Hlow.
  - subst fixStart. lia.
Qed.

Lemma fix_range_within_node_witness :
  checkMember Examples.DeclareFoo.sourceCode Examples.DeclareFoo.member
    (Interface Examples.DeclareFoo.node)
  = Ok (Some (mkReport Examples.DeclareFoo.member
                "functionTypeOverCallableType" "Interface"
                "type Foo = () => void;" (8, 35) "type Foo = () => void;"))
  /\ token_aligned Examples.DeclareFoo.sourceCode
       (interface_range Examples.DeclareFoo.node)
  /\ fst (interface_range Examples.DeclareFoo.node) <= fst (8, 35)
  /\ snd (8, 35) = snd (interface_range Examples.DeclareFoo.node).
Proof.
  assert (Ha : token_aligned Examples.DeclareFoo.sourceCode
                 (interface_range Examples.DeclareFoo.node)).
  { split.
    - exists (mkToken AST_TOKEN_TYPES.Identifier "declare" (0, 7)).
      split; [cbn; tauto | reflexivity].
    - exists (mkToken AST_TOKEN_TYPES.Punctuator "}" (34, 35)).
      split; [cbn; tauto | reflexivity]. }
  assert (Hal : forall d,
             Interface Examples.DeclareFoo.node = Interface d ->
             token_aligned Examples.DeclareFoo.sourceCode
               (interface_range d)).
  { intros d H. injection H as <-. exact Ha. }
  split; [reflexivity|]. split; [exact Ha|].
  exact (fix_range_within_node Examples.DeclareFoo.sourceCode
           Examples.DeclareFoo.member (Interface Examples.DeclareFoo.node)
           (mkReport Examples.DeclareFoo.member
              "functionTypeOverCallableType" "Interface"
              "type Foo = () => void;" (8, 35) "type Foo = () => void;")
           eq_refl Hal).
Defined.

(** ** The text of the suggestion *)

Lemma substring_whole (s : string) : substring 0 (String.length s) s = s.
Proof.
  induction s as [|a s IH]; cbn; [reflexivity | now rewrite IH].
Qed.

Lemma substring_prefix_append (a b : string) :
  substring 0 (String.length a) (a ++ b) = a.
Proof.
  induction a as [|x a IH]; cbn.
  - now destruct b.
  - now rewrite IH.
Qed.

Lemma get_in_bounds (s : string) (n : nat) (c : ascii) :
  get n s = Some c -> (n < String.length s)%nat.
Proof.
  revert n; induction s as [|a s IH]; intros n H; cbn in *; [discriminate|].
  destruct n as [|n]; [lia|]. apply IH in H. lia.
Qed.

(** A string is the text before a position, the character there and the
    text after it. *)
Lemma substring_split (s : string) (n : nat) (c : ascii) :
  get n s = Some c ->
  s = substring 0 n s ++ String c EmptyString
      ++ substring (S n) (String.length s - S n) s.
Proof.
  revert n; induction s as [|a s IH]; intros n H; [discriminate H|].
  destruct n as [|n].
  - cbn in H. injection H as <-.
    replace (String.length (String a s) - 1)%nat with (String.length s)
      by (cbn; lia).
    cbn [substring append]. destruct (String.length s) eqn:E.
    + destruct s; [reflexivity | discriminate E].
    + rewrite <- E. now rewrite substring_whole.
  - cbn in H.
    replace (String.length (String a s) - S (S n))%nat
      with (String.length s - S n)%nat by (cbn; lia).
    cbn [substring append]. f_equal. now apply IH.
Qed.

(** X13.  The two slices [lhs] and [rhs] are the whole text of the signature but
    for the one character at the start of the return type annotation, the
    colon in a parsed tree: nothing else of the signature is lost. *)
Theorem signature_split_at_colon (sourceCode : SourceCode)
  (call : TypeElement) (rt : Node) (c : ascii) :
  0 <= colonPos call rt ->
  get (Z.to_nat (colonPos call rt)) (signatureText sourceCode call) = Some c ->
  signatureText sourceCode call
  = lhsText sourceCode call rt ++ String c EmptyString
    ++ rhsText sourceCode call rt.
Proof.
  intros Hpos Hget.
  pose proof (get_in_bounds _ _ _ Hget) as Hlt.
  unfold lhsText, rhsText, JS.slice, JS.clamp.
  set (text := signatureText sourceCode call) in *.
  set (k := colonPos call rt) in *.
  assert (Hk : k < Z.of_nat (String.length text)) by lia.
  replace (0 <? 0) with false by reflexivity.
  replace (k <? 0) with false by (symmetry; apply Z.ltb_ge; lia).
  replace (k + 1 <? 0) with false by (symmetry; apply Z.ltb_ge; lia).
  rewrite (Z.min_l 0) by lia. rewrite (Z.min_l k) by lia.
  rewrite (Z.min_l (k + 1)) by lia.
  rewrite !Z.max_l by lia.
  replace (Z.to_nat (k - 0)) with (Z.to_nat k) by (f_equal; lia).
  replace (Z.to_nat (k + 1)) with (S (Z.to_nat k)) by lia.
  replace (Z.to_nat (Z.of_nat (String.length text) - (k + 1)))
    with (String.length text - S (Z.to_nat k))%nat by lia.
  change (Z.to_nat 0) with 0%nat.
  now apply substring_split.
Qed.

Lemma signature_split_at_colon_witness :
  0 <= 2
  /\ get 2 "(): void" = Some ":"%char
  /\ "(): void" = "()" ++ ":" ++ " void".
Proof.
  split; [lia|]. split; [reflexivity|].
  exact (signature_split_at_colon Examples.FooVoid.sourceCode
           Examples.FooVoid.member
           (Examples.annotation (18, 24)
              (Examples.leaf AST_NODE_TYPES.TSVoidKeyword (20, 24)))
           ":"%char ltac:(cbn; lia) eq_refl).
Defined.

Lemma lhsRewritten_no_this (params : list Param) (n lhs : string) :
  existsb param_is_this params = false -> lhsRewritten params n lhs = lhs.
Proof.
  unfold lhsRewritten. revert lhs.
  induction params as [|p params IH]; intros lhs H; [reflexivity|].
  cbn in H. apply orb_false_iff in H as [Hp H].
  cbn [fold_left]. rewrite Hp. now apply IH.
Qed.

(** X14.  When neither the return position nor a parameter asks for the name of
    the enclosing node, the suggestion is made of the two slices of the
    source alone, joined by the arrow, for an interface declaration and for
    a type literal alike; nothing throws. *)
Theorem suggestion_from_source_slices (sourceCode : SourceCode)
  (call : TypeElement) (parent : EnclosingNode) (rt t : Node)
  (resolved : option Range) :
  member_returnType call = Some rt ->
  typeAnnotation rt = Some t ->
  getReturnType t = Ok resolved ->
  reads_parent_name sourceCode resolved call = false ->
  renderSuggestion sourceCode call parent
  = Ok (declarationText sourceCode parent
          (wrapped (node_parent parent)
             (lhsText sourceCode call rt ++ " =>"
              ++ rhsText sourceCode call rt))).
Proof.
  intros Hrt Ht Hres Hfree. destruct parent as [d|l].
  - rewrite (renderSuggestion_named sourceCode call (Interface d) rt t
               resolved (name (id d)) Hrt Ht Hres eq_refl).
    unfold reads_parent_name in Hfree.
    apply orb_false_iff in Hfree as [Hr Hp].
    rewrite (lhsRewritten_no_this _ _ _ Hp).
    unfold rhsRewritten. destruct resolved as [r|]; [|reflexivity].
    now rewrite Hr.
  - rewrite (renderSuggestion_unnamed sourceCode call l rt t resolved
               Hrt Ht Hres).
    fold (reads_parent_name sourceCode resolved call). now rewrite Hfree.
Qed.

Lemma suggestion_from_source_slices_witness :
  reads_parent_name Examples.FooGeneric.sourceCode None
    Examples.FooGeneric.member = false
  /\ renderSuggestion Examples.FooGeneric.sourceCode
       Examples.FooGeneric.member (Interface Examples.FooGeneric.node)
     = Ok ("type " ++ "Foo<T>" ++ " = " ++ "(x: T)" ++ " =>" ++ " T").
Proof.
  split; [reflexivity|].
  exact (suggestion_from_source_slices Examples.FooGeneric.sourceCode
           Examples.FooGeneric.member (Interface Examples.FooGeneric.node)
           (Examples.annotation (25, 28)
              (Examples.leaf AST_NODE_TYPES.TSTypeReference (27, 28)))
           (Examples.leaf AST_NODE_TYPES.TSTypeReference (27, 28))
           None eq_refl eq_refl eq_refl eq_refl).
Defined.

(** X15.  A type literal whose only member is a call or construct signature with
    a written return type, and whose signature does not involve [this], is
    reported: the label is [Type literal], the fix covers the literal and
    the suggestion is made of the source slices. *)
Theorem this_free_literal_reported (sourceCode : SourceCode)
  (l : TSTypeLiteral) (member : TypeElement) (rt t : Node)
  (resolved : option Range) :
  members l = [member] ->
  callable_with_returnType member ->
  member_returnType member = Some rt ->
  typeAnnotation rt = Some t ->
  getReturnType t = Ok resolved ->
  reads_parent_name sourceCode resolved member = false ->
  visitTypeLiteral sourceCode l
  = Ok (Some (mkReport member "functionTypeOverCallableType" "Type literal"
                (literalText
                   (wrapped (literal_parent l)
                      (lhsText sourceCode member rt ++ " =>"
                       ++ rhsText sourceCode member rt)))
                (fst (literal_range l), snd (literal_range l))
                (literalText
                   (wrapped (literal_parent l)
                      (lhsText sourceCode member rt ++ " =>"
                       ++ rhsText sourceCode member rt))))).
Proof.
  intros Hm Hq Hrt Ht Hres Hfree.
  apply is_signature_with_returnType_iff in Hq.
  unfold visitTypeLiteral. rewrite Hm. cbn [List.length Nat.eqb nth_error].
  apply checkMember_literal; [exact Hq|].
  rewrite (renderSuggestion_unnamed sourceCode member l rt t resolved
             Hrt Ht Hres).
  fold (reads_parent_name sourceCode resolved member). now rewrite Hfree.
Qed.

Lemma this_free_literal_reported_witness :
  callable_with_returnType Examples.LiteralStandalone.member
  /\ reads_parent_name Examples.LiteralStandalone.sourceCode None
       Examples.LiteralStandalone.member = false
  /\ visitTypeLiteral Examples.LiteralStandalone.sourceCode
       Examples.LiteralStandalone.node
     = Ok (Some (mkReport Examples.LiteralStandalone.member
                   "functionTypeOverCallableType" "Type literal"
                   "() => void" (9, 21) "() => void")).
Proof.
  assert (H : callable_with_returnType Examples.LiteralStandalone.member)
    by (split; [left; reflexivity | discriminate]).
  split; [exact H|]. split; [reflexivity|].
  exact (this_free_literal_reported Examples.LiteralStandalone.sourceCode
           Examples.LiteralStandalone.node Examples.LiteralStandalone.member
           (Examples.annotation (13, 19)
              (Examples.leaf AST_NODE_TYPES.TSVoidKeyword (15, 19)))
           (Examples.leaf AST_NODE_TYPES.TSVoidKeyword (15, 19))
           None eq_refl H eq_refl eq_refl eq_refl eq_refl).
Defined.

(** X16.  For a declaration whose name holds no dollar sign the rewriting is plain
    text substitution: every parameter typed [this] puts the name in place
    of the first [this] then left in the parameter text, in the order of the
    parameters, and a resolved return position does the same once in the
    return-type text. *)
Theorem name_substituted_per_parameter (sourceCode : SourceCode)
  (call : TypeElement) (d : TSInterfaceDeclaration) (rt t : Node)
  (resolved : option Range) :
  dollar_free (name (id d)) = true ->
  member_returnType call = Some rt ->
  typeAnnotation rt = Some t ->
  getReturnType t = Ok resolved ->
  renderSuggestion sourceCode call (Interface d)
  = Ok (aliasText sourceCode d
          (wrapped (interface_parent d)
             (fold_left
                (fun lhs param =>
                   if param_is_this param
                   then substituteFirst "this" (name (id d)) lhs
                   else lhs)
                (member_params call) (lhsText sourceCode call rt)
              ++ " =>"
              ++ match resolved with
                 | Some r =>
                     if reads_this sourceCode r
                     then substituteFirst "this" (name (id d))
                            (rhsText sourceCode call rt)
                     else rhsText sourceCode call rt
                 | None => rhsText sourceCode call rt
                 end))).
Proof.
  intros Hd Hrt Ht Hres.
  rewrite (renderSuggestion_named sourceCode call (Interface d) rt t
             resolved (name (id d)) Hrt Ht Hres eq_refl).
  rewrite (lhsRewritten_dollar_free _ _ _ Hd).
  unfold rhsRewritten. cbn [declarationText node_parent].
  destruct resolved as [r|]; [|reflexivity].
  destruct (reads_this sourceCode r); [|reflexivity].
  now rewrite (replace_substituteFirst _ _ _ Hd).
Qed.

Lemma name_substituted_per_parameter_witness :
  dollar_free (name (id Examples.FooParamThis.node)) = true
  /\ renderSuggestion Examples.FooParamThis.sourceCode
       Examples.FooParamThis.member (Interface Examples.FooParamThis.node)
     = Ok ("type Foo = " ++ substituteFirst "this" "Foo" "(x: this)"
           ++ " =>" ++ " void").
Proof.
  split; [reflexivity|].
  exact (name_substituted_per_parameter Examples.FooParamThis.sourceCode
           Examples.FooParamThis.member Examples.FooParamThis.node
           (Examples.annotation (25, 31)
              (Examples.leaf AST_NODE_TYPES.TSVoidKeyword (27, 31)))
           (Examples.leaf AST_NODE_TYPES.TSVoidKeyword (27, 31))
           None eq_refl eq_refl eq_refl eq_refl).
Defined.

Lemma endsWith_semicolon (s : string) : JS.endsWith (s ++ ";") ";" = true.
Proof.
  unfold JS.endsWith. rewrite length_append. cbn [String.length].
  replace (String.length s + 1 - 1)%nat with (String.length s) by lia.
  change ";"%string with (String ";" EmptyString).
  rewrite substring_at_append.
  replace (1 <=? String.length s + 1)%nat with true
    by (symmetry; apply Nat.leb_le; lia).
  reflexivity.
Qed.

Lemma slice_drop_last (s : string) :
  JS.slice (s ++ ";") 0 (Some (-1)) = s.
Proof.
  unfold JS.slice, JS.clamp. rewrite length_append. cbn [String.length].
  replace (0 <? 0) with false by reflexivity.
  replace (-1 <? 0) with true by reflexivity.
  rewrite Z.min_l by lia. rewrite Z.max_l by lia. rewrite Z.max_l by lia.
  replace (Z.to_nat (Z.of_nat (String.length s + 1) + -1 - 0))
    with (String.length s) by lia.
  change (Z.to_nat 0) with 0%nat.
  apply substring_prefix_append.
Qed.

(** X17.  The semicolon that closes the signature: in a type literal it is
    dropped from the end of the suggestion, one character and no more,
    unless the suggestion was put in parentheses, where it stays inside
    them; in the alias built for an interface declaration it stays at the
    end. *)
Theorem trailing_semicolon (sourceCode : SourceCode) (call : TypeElement)
  (node : EnclosingNode) (s : string) :
  arrowFunctionText sourceCode call node = Ok (s ++ ";") ->
  (forall l, node = TypeLiteral l ->
             ~ union_intersection_or_array (literal_parent l) ->
             renderSuggestion sourceCode call node = Ok s)
  /\ (forall l, node = TypeLiteral l ->
                union_intersection_or_array (literal_parent l) ->
                renderSuggestion sourceCode call node
                = Ok ("(" ++ s ++ ";" ++ ")"))
  /\ (forall d, node = Interface d ->
                ~ union_intersection_or_array (interface_parent d) ->
                renderSuggestion sourceCode call node
                = Ok (aliasText sourceCode d s ++ ";")).
Proof.
  intro Hbase. rewrite renderSuggestion_stages, Hbase. cbn [bind].
  split; [|split].
  - intros l -> Hp. cbn [declarationText node_parent]. unfold wrapped.
    destruct (shouldWrapSuggestion (literal_parent l)) eqn:E.
    + apply shouldWrapSuggestion_iff in E. contradiction.
    + unfold literalText. now rewrite endsWith_semicolon, slice_drop_last.
  - intros l -> Hp. cbn [declarationText node_parent]. unfold wrapped.
    apply shouldWrapSuggestion_iff in Hp. rewrite Hp.
    unfold literalText, parenthesize.
    rewrite endsWith_parenthesized. now rewrite append_assoc.
  - intros d -> Hp. cbn [declarationText node_parent]. unfold wrapped.
    destruct (shouldWrapSuggestion (interface_parent d)) eqn:E.
    + apply shouldWrapSuggestion_iff in E. contradiction.
    + unfold aliasText. destruct (typeParameters d) as [tp|];
        f_equal; cbn [append]; rewrite !append_assoc; reflexivity.
Qed.

Lemma trailing_semicolon_witness :
  arrowFunctionText Examples.LiteralSemicolon.sourceCode
    Examples.LiteralSemicolon.member
    (TypeLiteral Examples.LiteralSemicolon.node)
  = Ok ("() => void" ++ ";")
  /\ ~ union_intersection_or_array
        (literal_parent Examples.LiteralSemicolon.node)
  /\ renderSuggestion Examples.LiteralSemicolon.sourceCode
       Examples.LiteralSemicolon.member
       (TypeLiteral Examples.LiteralSemicolon.node)
     = Ok "() => void".
Proof.
  assert (H : ~ union_intersection_or_array
                (literal_parent Examples.LiteralSemicolon.node))
    by (intros [H|[H|H]]; discriminate H).
  split; [reflexivity|]. split; [exact H|].
  exact (proj1 (trailing_semicolon Examples.LiteralSemicolon.sourceCode
                  Examples.LiteralSemicolon.member
                  (TypeLiteral Examples.LiteralSemicolon.node)
                  "() => void" eq_refl)
           Examples.LiteralSemicolon.node eq_refl H).
Defined.

Lemma visitTypeLiteral_this_throws_witness :
  members Examples.LiteralThis.node = [Examples.LiteralThis.member]
  /\ reads_parent_name Examples.LiteralThis.sourceCode (Some (15, 19))
       Examples.LiteralThis.member = true
  /\ visitTypeLiteral Examples.LiteralThis.sourceCode
       Examples.LiteralThis.node = TypeError.
Proof.
  split; [reflexivity|]. split; [reflexivity|].
  exact (visitTypeLiteral_this_throws Examples.LiteralThis.sourceCode
           Examples.LiteralThis.node Examples.LiteralThis.member
           (Examples.annotation (13, 19)
              (Examples.leaf AST_NODE_TYPES.TSThisType (15, 19)))
           (Examples.leaf AST_NODE_TYPES.TSThisType (15, 19))
           (Some (15, 19)) eq_refl eq_refl eq_refl eq_refl eq_refl eq_refl).
Defined.
